(** * PLACSP daily tenders by CPV: a shallow embedding of [placsp_module.py]

    The development follows the module top to bottom: the Python string
    primitives it calls, the XML tree and the XPath queries it evaluates,
    the helpers [text1] / [texts], the entry predicates, field extraction,
    the archive loop of [process_zip_bytes] and finally [run_placsp].

    Conventions.
    - A Python [str] is a [string]; a character is read as the Unicode code
      point of the same number, so the model covers U+0000 .. U+00FF.
    - A Python [set] of [str] is a [gset string].
    - [bytes] are [list byte].
    - A Python exception is a value of [exn]; a call that may raise returns
      a [result]. *)

From Stdlib Require Import String Ascii Strings.Byte List NArith Arith Lia Sorted Permutation.
From stdpp Require Import gmap strings list sorting pretty.

Import ListNotations.
Local Open Scope string_scope.

(** ** Exceptions and results *)

Inductive exn : Type :=
| BadZipFile              (* zipfile: bytes that are no archive; a member with a bad CRC-32 *)
| KeyError                (* zf.read(name): no such member *)
| ZipReadError            (* zf.read(name): any other failure (bad CRC, ...) *)
| XMLSyntaxError          (* lxml: no document could be built at all *)
| AttributeError          (* attribute access on None *)
| IndexError              (* res[0] on an empty sequence *)
| ValueError_fromisoformat (* dt.date.fromisoformat on a malformed date *)
| ValueError_sin_cpv      (* raise ValueError("Sin CPV validos (8 digitos).") *)
| RuntimeError_descarga   (* raise RuntimeError("Error descargando ...") *)
| RequestError            (* whatever requests.get / raise_for_status raise *)
| ZoneInfoNotFoundError.  (* ZoneInfo(PLACSP_TZ) without time zone data *)

Global Instance exn_eq_dec : EqDecision exn.
Proof. solve_decision. Defined.

Inductive result (A : Type) : Type :=
| Ok (a : A)
| Raise (e : exn).
Arguments Ok {A} a.
Arguments Raise {A} e.

Global Instance result_ret : MRet result := @Ok.

Global Instance result_bind : MBind result := fun A B k r =>
  match r with
  | Ok a => k a
  | Raise e => Raise e
  end.

Definition bytes : Type := list Byte.byte.

Global Instance byte_eq_dec : EqDecision Byte.byte := Byte.byte_eq_dec.

Global Instance bytes_eq_dec : EqDecision bytes.
Proof. unfold bytes. apply _. Defined.

(** ** Python string primitives *)

Module Py.

Definition ord (c : ascii) : N := N_of_ascii c.

(** [str.isspace] on one character: the ASCII white space of CPython's
    table (TAB..CR, FS..US, SPACE) plus NEL (U+0085) and NBSP (U+00A0). *)
Definition ch_isspace (c : ascii) : bool :=
  let n := ord c in
  ((9 <=? n) && (n <=? 13) || (28 <=? n) && (n <=? 32)
   || (n =? 133) || (n =? 160))%N.

(** [str.isdigit] on one character: Numeric_Type Decimal ('0'..'9') or
    Digit (the superscripts U+00B2, U+00B3, U+00B9). *)
Definition ch_isdigit (c : ascii) : bool :=
  let n := ord c in
  ((48 <=? n) && (n <=? 57) || (n =? 178) || (n =? 179) || (n =? 185))%N.

(** [str.lower] on one character: 'A'..'Z' and U+00C0..U+00DE (without
    the multiplication sign U+00D7) move up by 32. *)
Definition ch_lower (c : ascii) : ascii :=
  let n := ord c in
  if ((65 <=? n) && (n <=? 90)
      || (192 <=? n) && (n <=? 222) && negb (n =? 215))%N
  then ascii_of_N (n + 32) else c.

Fixpoint lower (s : string) : string :=
  match s with
  | EmptyString => EmptyString
  | String c s' => String (ch_lower c) (lower s')
  end.

Fixpoint all_chars (p : ascii -> bool) (s : string) : bool :=
  match s with
  | EmptyString => true
  | String c s' => p c && all_chars p s'
  end.

(** [s.isdigit()]: at least one character, and every character a digit. *)
Definition isdigit (s : string) : bool :=
  match s with
  | EmptyString => false
  | String _ _ => all_chars ch_isdigit s
  end.

Fixpoint lstrip (s : string) : string :=
  match s with
  | EmptyString => EmptyString
  | String c s' => if ch_isspace c then lstrip s' else s
  end.

Fixpoint rstrip (s : string) : string :=
  match s with
  | EmptyString => EmptyString
  | String c s' =>
      match rstrip s' with
      | EmptyString => if ch_isspace c then EmptyString else String c EmptyString
      | String _ _ as r => String c r
      end
  end.

(** [s.strip()] *)
Definition strip (s : string) : string := rstrip (lstrip s).

Fixpoint zeros (n : nat) : string :=
  match n with
  | O => EmptyString
  | S n' => String "0" (zeros n')
  end.

(** [s.zfill(width)]: pad with '0' on the left up to [width]; a leading
    sign stays in front of the padding; a string that is already long
    enough is returned unchanged. *)
Definition zfill (width : nat) (s : string) : string :=
  let n := String.length s in
  if (width <=? n)%nat then s
  else
    let pad := zeros (width - n) in
    match s with
    | String c rest =>
        if (Ascii.eqb c "+" || Ascii.eqb c "-")%bool
        then String c (pad +:+ rest)
        else pad +:+ s
    | EmptyString => pad
    end.

(** [s.startswith(p)] *)
Definition startswith (s p : string) : bool := String.prefix p s.

(** [s.endswith(p)] *)
Definition endswith (s p : string) : bool :=
  let n := String.length s in
  let k := String.length p in
  (k <=? n)%nat && String.eqb (String.substring (n - k) k s) p.

(** [bool(s)] for a string. *)
Definition truthy (s : string) : bool :=
  match s with
  | EmptyString => false
  | String _ _ => true
  end.

(** [sep.join(l)] *)
Definition join (sep : string) (l : list string) : string :=
  String.concat sep l.

(** Code-point order on strings, the order of [sorted] on [str]. *)
Definition str_le (a b : string) : Prop := String.leb a b = true.

Global Instance str_le_dec : RelDecision str_le.
Proof. intros a b. unfold str_le. apply _. Defined.

(** [sorted(s)] for a set of strings: the order in which Python iterates
    the set does not matter, the result is the increasing enumeration. *)
Definition sorted (s : gset string) : list string :=
  merge_sort str_le (elements s).

(** [set(l)] *)
Definition set_of (l : list string) : gset string := list_to_set l.

End Py.

(** ** The parsed tree

    What [etree.fromstring] hands back, seen through the XPath data model:
    an element has a name (namespace URI and local part), attributes and an
    ordered list of child nodes; text, comments and processing instructions
    are leaves.  lxml's [el.text] / [el.tail] are the text children here. *)

Record QName : Type := { ns_uri : string; local_name : string }.

#[warnings="-register-all"]
Inductive Node : Type :=
| Element (tag : QName) (attrib : list (QName * string)) (children : list Node)
| Text (s : string)
| Comment (s : string)
| ProcInst (target data : string).

(** An element without namespace, as most examples below need. *)
Definition el (name : string) (kids : list Node) : Node :=
  Element {| ns_uri := ""; local_name := name |} [] kids.

Module XPath.

Definition children (n : Node) : list Node :=
  match n with
  | Element _ _ kids => kids
  | _ => []
  end.

(** The node test [*[local-name()='nm']]. *)
Definition named (nm : string) (n : Node) : bool :=
  match n with
  | Element t _ _ => String.eqb (local_name t) nm
  | _ => false
  end.

(** String-value of an element: its text-node descendants, concatenated
    in document order. *)
Fixpoint string_value (n : Node) : string :=
  match n with
  | Element _ _ kids => String.concat "" (map string_value kids)
  | Text s => s
  | Comment _ => ""
  | ProcInst _ _ => ""
  end.

(** [descendant::node()], in document order. *)
Fixpoint descendants (n : Node) : list Node :=
  match n with
  | Element _ _ kids => flat_map (fun k => k :: descendants k) kids
  | _ => []
  end.

(** [./*[local-name()='nm']] *)
Definition child_elements (nm : string) (n : Node) : list Node :=
  List.filter (named nm) (children n).

(** [.//*[local-name()='nm']] *)
Definition descendant_elements (nm : string) (n : Node) : list Node :=
  List.filter (named nm) (descendants n).

(** [//*[local-name()='nm']], evaluated at the root element. *)
Definition all_elements (nm : string) (root : Node) : list Node :=
  List.filter (named nm) (root :: descendants root).

(** The text nodes selected by [.//*[local-name()='nm']/text()] below one
    child of the context node, in document order; [under] tells whether
    the parent of [n] passes the name test. *)
Fixpoint text_nodes (nm : string) (under : bool) (n : Node) : list string :=
  match n with
  | Element t _ kids =>
      flat_map (text_nodes nm (String.eqb (local_name t) nm)) kids
  | Text s => if under then [s] else []
  | Comment _ => []
  | ProcInst _ _ => []
  end.

(** [.//*[local-name()='nm']/text()]: the context node itself is not among
    [.//*], so its own text children are not selected. *)
Definition descendant_text (nm : string) (n : Node) : list string :=
  flat_map (text_nodes nm false) (children n).

(** [@attr]: the attribute of that local name in no namespace. *)
Definition attribute (attr : string) (n : Node) : option string :=
  match n with
  | Element _ attrs _ =>
      match List.find (fun a => String.eqb (ns_uri (fst a)) ""
                                && String.eqb (local_name (fst a)) attr) attrs with
      | Some a => Some (snd a)
      | None => None
      end
  | _ => None
  end.

(** [./*[local-name()='nm']/@attr]: the attribute nodes, in document
    order, of the children that carry one. *)
Definition child_attributes (nm attr : string) (n : Node) : list string :=
  omap (attribute attr) (child_elements nm n).

(** XPath [string(node-set)]: the string-value of the first node in
    document order, the empty string for an empty node-set. *)
Definition string_of_first {A : Type} (sv : A -> string) (l : list A) : string :=
  match l with
  | [] => ""
  | x :: _ => sv x
  end.

(** The expressions the module evaluates. *)
Inductive expr : Type :=
| StringChild (nm : string)            (* string(./*[local-name()='nm'])       *)
| StringChildAttr (nm attr : string)   (* string(./*[local-name()='nm']/@attr) *)
| StringDescendant (nm : string)       (* string(.//*[local-name()='nm'])      *)
| DescendantText (nm : string)         (* .//*[local-name()='nm']/text()       *)
| AnyElement (nm : string).            (* //*[local-name()='nm']               *)

(** What [node.xpath(...)] returns: a string for a [string(...)]
    expression, a list of strings for text nodes, a list of elements. *)
Inductive value : Type :=
| XStr (s : string)
| XTexts (l : list string)
| XElems (l : list Node).

Definition eval (n : Node) (e : expr) : value :=
  match e with
  | StringChild nm => XStr (string_of_first string_value (child_elements nm n))
  | StringChildAttr nm attr => XStr (string_of_first id (child_attributes nm attr n))
  | StringDescendant nm => XStr (string_of_first string_value (descendant_elements nm n))
  | DescendantText nm => XTexts (descendant_text nm n)
  | AnyElement nm => XElems (all_elements nm n)
  end.

End XPath.

Import XPath.

(** One item of a sequence returned by [xpath]: indexing or iterating a
    [str] gives one-character strings, a list gives its members. *)
Inductive item : Type :=
| IStr (s : string)
| IElem (n : Node).

(** [not res] is false exactly on a non-empty string or list. *)
Definition value_truthy (v : value) : bool :=
  match v with
  | XStr s => Py.truthy s
  | XTexts l => match l with [] => false | _ :: _ => true end
  | XElems l => match l with [] => false | _ :: _ => true end
  end.

(** [res[0]] *)
Definition getitem0 (v : value) : result item :=
  match v with
  | XStr (String c _) => Ok (IStr (String c EmptyString))
  | XTexts (s :: _) => Ok (IStr s)
  | XElems (n :: _) => Ok (IElem n)
  | _ => Raise IndexError
  end.

(** [list(res)]: what a [for v in res] loop visits. *)
Definition value_items (v : value) : list item :=
  match v with
  | XStr s => map (fun c => IStr (String c EmptyString)) (list_ascii_of_string s)
  | XTexts l => map IStr l
  | XElems l => map IElem l
  end.

(** lxml's [el.text or ""]: the text in front of the first non-text child. *)
Fixpoint leading_text (kids : list Node) : string :=
  match kids with
  | Text s :: rest => s +:+ leading_text rest
  | _ => ""
  end.

(** [v if isinstance(v, str) else (v.text or "")] *)
Definition item_text (v : item) : string :=
  match v with
  | IStr s => s
  | IElem n => leading_text (children n)
  end.

Definition text1 (node : Node) (xpath_expr : expr) : result string :=
  let res := eval node xpath_expr in
  if negb (value_truthy res) then Ok ""
  else
    val ← getitem0 res;
    Ok (item_text val).

Definition texts (node : Node) (xpath_expr : expr) : list string :=
  let res := eval node xpath_expr in
  map item_text (value_items res).

Definition entry_is_for_date (entry : Node) (iso_date : string) : result bool :=
  upd ← text1 entry (StringChild "updated");
  Ok (Py.truthy upd && Py.startswith upd iso_date).

Definition entry_cpv_codes (entry : Node) : list string :=
  texts entry (DescendantText "ItemClassificationCode").

(** The dict built by [extract_fields]: its eight keys are fixed. *)
Record TenderRecord : Type := {
  expediente : string;
  objeto : string;
  organo : string;
  estado : string;
  importe : string;
  cpv : string;
  fecha_updated : string;
  enlace : string
}.

Definition extract_fields (entry : Node) : result TenderRecord :=
  title ← text1 entry (StringChild "title");
  updated ← text1 entry (StringChild "updated");
  link ← text1 entry (StringChildAttr "link" "href");
  expediente ← text1 entry (StringDescendant "ContractFolderID");
  organo ← text1 entry (StringDescendant "ContractingPartyName");
  importe ← text1 entry (StringDescendant "TotalAmount");
  estado ← text1 entry (StringDescendant "ContractFolderStatus");
  let cpvs := entry_cpv_codes entry in
  let cpv_concat := Py.join ";" (Py.sorted (Py.set_of cpvs)) in
  Ok {| expediente := expediente;
        objeto := title;
        organo := organo;
        estado := estado;
        importe := importe;
        cpv := cpv_concat;
        fecha_updated := updated;
        enlace := link |}.

(** A sample entry in the shape of the feed. *)
Definition sample_entry : Node :=
  el "entry"
    [ el "title" [Text "Obras de cubierta"];
      el "updated" [Text "2024-03-05T10:00:00+01:00"];
      Element {| ns_uri := ""; local_name := "link" |}
        [({| ns_uri := ""; local_name := "href" |}, "https://example.org/t/1")] [];
      el "ContractFolderStatus"
        [ el "ContractFolderID" [Text "EXP-1"];
          el "ProcurementProject"
            [ el "RequiredCommodityClassification"
                [el "ItemClassificationCode" [Text "45261215"]];
              el "RequiredCommodityClassification"
                [el "ItemClassificationCode" [Text "45261215"]];
              el "RequiredCommodityClassification"
                [el "ItemClassificationCode" [Text "09330000"]] ] ] ].

(** ** The world outside the module

    The libraries and the operating system the module calls are not part of
    it; they enter as one record of oracles.  Every theorem below holds for
    whatever they answer. *)

Record date : Type := { year : nat; month : nat; day : nat }.

(** An opened [zipfile.ZipFile]: [zf.namelist()] and [zf.read(name)]. *)
Record ZipArchive : Type := {
  namelist : list string;
  read : string -> result bytes
}.

Record Env : Type := {
  (** [zipfile.ZipFile(io.BytesIO(b))] *)
  ZipFile : bytes -> result ZipArchive;
  (** [etree.fromstring(b, parser=_PARSER)] with the recovering parser:
      a syntax error when no document comes out at all, [None] when the
      document has no root element, the root element otherwise. *)
  fromstring : bytes -> result (option Node);
  (** [requests.get(url).content] after [raise_for_status], per attempt. *)
  requests_get : string -> nat -> result bytes;
  (** [dt.date.fromisoformat] *)
  fromisoformat : string -> result date;
  (** [ZoneInfo is not None] *)
  has_zoneinfo : bool;
  (** [dt.datetime.now(ZoneInfo(PLACSP_TZ)).date()]; [ZoneInfo] raises when
      the system has no data for the zone. *)
  today_madrid : result date;
  (** [dt.datetime.utcnow().date()] *)
  today_utc : date;
  (** [target_date.strftime("%Y%m")] *)
  strftime_Ym : date -> string;
  (** [os.path.abspath] *)
  abspath : string -> string
}.

(** [d.isoformat()], that is ["%04d-%02d-%02d"]. *)
Definition isoformat (d : date) : string :=
  Py.zfill 4 (pretty (year d)) +:+ "-" +:+
  Py.zfill 2 (pretty (month d)) +:+ "-" +:+
  Py.zfill 2 (pretty (day d)).

(** What the run does to the outside, in order. *)
Inductive event : Type :=
| EvGet (url : string) (attempt : nat)       (* requests.get(url, ...)         *)
| EvSleep (exponent : nat)                   (* time.sleep(backoff ** i)        *)
| EvPrint (line : nat)                       (* the n-th [print] of run_placsp  *)
| EvWriteCsv (path : string) (rows : list TenderRecord).

Section Pipeline.

Variable env : Env.

(** [for i in range(retries)], entered with [k = retries - i]. *)
Fixpoint http_get_attempts (url : string) (retries i k : nat)
  : list event * result bytes :=
  match k with
  | O => ([], Raise RuntimeError_descarga)
  | S k' =>
      match requests_get env url i with
      | Ok content => ([EvGet url i], Ok content)
      | Raise _ =>
          let '(tr, r) := http_get_attempts url retries (S i) k' in
          ((EvGet url i :: (if (i <? retries - 1)%nat then [EvSleep i] else []) ++ tr)%list, r)
      end
  end.

Definition http_get_bytes (url : string) : list event * result bytes :=
  http_get_attempts url 3 0 3.

Definition iter_entries (atom_bytes : bytes) : result (list Node) :=
  root ← fromstring env atom_bytes;
  match root with
  | None => Raise AttributeError                (* None has no [xpath] *)
  | Some r =>
      match eval r (AnyElement "entry") with
      | XElems l => Ok l
      | _ => Ok []
      end
  end.

Definition month_zip_url (target_date : date) : string :=
  "https://contrataciondelestado.es/sindicacion/sindicacion_643/" +:+
  "licitacionesPerfilesContratanteCompleto3_" +:+ strftime_Ym env target_date +:+ ".zip".

(** [for e in iter_entries(atom)]: the body of the inner loop, over the
    entries still to visit and the list [found] built so far. *)
Fixpoint scan_entries (iso_date : string) (cpv_targets : gset string)
    (entries : list Node) (found : list TenderRecord) : result (list TenderRecord) :=
  match entries with
  | [] => Ok found
  | e :: rest =>
      ok ← entry_is_for_date e iso_date;
      if negb ok then scan_entries iso_date cpv_targets rest found
      else
        let cpvs := Py.set_of (entry_cpv_codes e) in
        if bool_decide (cpvs ∩ cpv_targets = ∅)
        then scan_entries iso_date cpv_targets rest found
        else
          r ← extract_fields e;
          scan_entries iso_date cpv_targets rest (found ++ [r])%list
  end.

(** [for name in zf.namelist()] *)
Fixpoint scan_members (zf : ZipArchive) (iso_date : string) (cpv_targets : gset string)
    (names : list string) (found : list TenderRecord) : result (list TenderRecord) :=
  match names with
  | [] => Ok found
  | name :: rest =>
      if negb (Py.endswith (Py.lower name) ".atom")
      then scan_members zf iso_date cpv_targets rest found
      else
        match read zf name with
        | Raise KeyError => scan_members zf iso_date cpv_targets rest found
        | Raise e => Raise e
        | Ok atom =>
            entries ← iter_entries atom;
            found' ← scan_entries iso_date cpv_targets entries found;
            scan_members zf iso_date cpv_targets rest found'
        end
  end.

Definition process_zip_bytes (zip_bytes : bytes) (iso_date : string)
    (cpv_targets : gset string) : result (list TenderRecord) :=
  zf ← ZipFile env zip_bytes;
  scan_members zf iso_date cpv_targets (namelist zf) [].

Definition resolve_target_date (iso_date_or_none : option string) : result date :=
  let today := if has_zoneinfo env then today_madrid env else Ok (today_utc env) in
  match iso_date_or_none with
  | Some s => if Py.truthy s then fromisoformat env s else today
  | None => today
  end.

End Pipeline.

Definition DEFAULT_CPV : list string := ["09330000"; "45261215"; "45315300"].

(** [cpv or DEFAULT_CPV] *)
Definition cpv_or_default (cpv : option (list string)) : list string :=
  match cpv with
  | Some (c :: l) => c :: l
  | _ => DEFAULT_CPV
  end.

(** The two set comprehensions of [run_placsp] that build [cpv_targets]. *)
Definition stripped_digits (cpv : option (list string)) : gset string :=
  list_to_set (map Py.strip
    (List.filter (fun c => Py.truthy c && Py.isdigit (Py.strip c)) (cpv_or_default cpv))).

Definition normalize_cpv (cpv : option (list string)) : gset string :=
  set_map (Py.zfill 8) (stripped_digits cpv).

(** What [run_placsp] returns, without the data frame: the rows, the path
    of the CSV file and the number of rows. *)
Definition run_result : Type := (list TenderRecord * string * nat)%type.

(** The run.  The prints and the write of the CSV file enter the trace as
    events that succeed: a [print] or an [open] that raises is outside this
    model, and no theorem below is about it. *)
Definition run_placsp (env : Env) (date_iso : option string) (cpv : option (list string))
    (out_path : option string) (verbose : bool) : list event * result run_result :=
  match resolve_target_date env date_iso with
  | Raise e => ([], Raise e)
  | Ok target =>
      let iso_date := isoformat target in
      let cpv_targets := normalize_cpv cpv in
      if bool_decide (cpv_targets = ∅) then ([], Raise ValueError_sin_cpv)
      else
        let out_path :=
          match out_path with
          | Some (String c p) => String c p
          | _ => abspath env ("placsp_" +:+ iso_date +:+ "_cpv.csv")
          end in
        let url := month_zip_url env target in
        let tr1 := if verbose then [EvPrint 1; EvPrint 2; EvPrint 3] else [] in
        let '(tr2, got) := http_get_bytes env url in
        match got with
        | Raise e => ((tr1 ++ tr2)%list, Raise e)
        | Ok zip_bytes =>
            let tr3 := if verbose then [EvPrint 4] else [] in
            match process_zip_bytes env zip_bytes iso_date cpv_targets with
            | Raise e => ((tr1 ++ tr2 ++ tr3)%list, Raise e)
            | Ok rows =>
                let tr4 := [EvWriteCsv out_path rows] in
                let tr5 := if verbose then [EvPrint 5; EvPrint 6] else [] in
                ((tr1 ++ tr2 ++ tr3 ++ tr4 ++ tr5)%list, Ok (rows, out_path, length rows))
            end
        end
  end.

(** ** Closed forms used by the proofs

    [text1] cannot raise (its index is guarded), so every helper above has a
    pure value; the lemmas below connect the two. *)

Definition first_char (s : string) : string :=
  match s with
  | EmptyString => EmptyString
  | String c _ => String c EmptyString
  end.

Definition text1_value (node : Node) (xpath_expr : expr) : string :=
  match eval node xpath_expr with
  | XStr s => first_char s
  | XTexts l => match l with [] => "" | s :: _ => s end
  | XElems l => match l with [] => "" | n :: _ => leading_text (children n) end
  end.

Definition record_of (entry : Node) : TenderRecord :=
  {| expediente := text1_value entry (StringDescendant "ContractFolderID");
     objeto := text1_value entry (StringChild "title");
     organo := text1_value entry (StringDescendant "ContractingPartyName");
     estado := text1_value entry (StringDescendant "ContractFolderStatus");
     importe := text1_value entry (StringDescendant "TotalAmount");
     cpv := Py.join ";" (Py.sorted (Py.set_of (entry_cpv_codes entry)));
     fecha_updated := text1_value entry (StringChild "updated");
     enlace := text1_value entry (StringChildAttr "link" "href") |}.

(** The test of the first [continue] of the inner loop. *)
Definition date_test (iso_date : string) (entry : Node) : bool :=
  let upd := text1_value entry (StringChild "updated") in
  Py.truthy upd && Py.startswith upd iso_date.

(** The test of the second [continue]: [cpvs & cpv_targets] is non-empty. *)
Definition code_test (cpv_targets : gset string) (entry : Node) : bool :=
  negb (bool_decide (Py.set_of (entry_cpv_codes entry) ∩ cpv_targets = ∅)).

Definition selected (iso_date : string) (cpv_targets : gset string) (entry : Node) : bool :=
  date_test iso_date entry && code_test cpv_targets entry.

(** The feed-file test on a member name. *)
Definition is_feed_name (name : string) : bool :=
  Py.endswith (Py.lower name) ".atom".

(** The entries the run parses out of one member, and out of the archive. *)
Definition member_entries (env : Env) (zf : ZipArchive) (name : string) : list Node :=
  if is_feed_name name then
    match read zf name with
    | Ok atom =>
        match iter_entries env atom with
        | Ok l => l
        | Raise _ => []
        end
    | Raise _ => []
    end
  else [].

Definition parsed_entries (env : Env) (zf : ZipArchive) : list Node :=
  flat_map (member_entries env zf) (namelist zf).

(** The members the loop goes on to parse: the name has the feed suffix and
    [zf.read] does not raise KeyError. *)
Definition member_is_read (zf : ZipArchive) (name : string) : bool :=
  is_feed_name name &&
  match read zf name with
  | Raise KeyError => false
  | _ => true
  end.

(** A feed member that does not stop the run: its read raises KeyError, or
    it is read and the parser finds a root element. *)
Definition member_passes (env : Env) (zf : ZipArchive) (name : string) : Prop :=
  read zf name = Raise KeyError \/
  exists atom root, read zf name = Ok atom /\ fromstring env atom = Ok (Some root).

(** ** The properties as the specification words them *)

(** The entry's "updated" timestamp: the whole string the query yields. *)
Definition updated_timestamp (entry : Node) : string :=
  string_of_first string_value (child_elements "updated" entry).

(** Date match: the timestamp is non-empty and starts with the ISO date. *)
Definition spec_date_match (entry : Node) (iso_date : string) : Prop :=
  updated_timestamp entry <> "" /\ String.prefix iso_date (updated_timestamp entry) = true.

(** Code match: the entry's code set meets the target set. *)
Definition spec_code_match (entry : Node) (cpv_targets : gset string) : Prop :=
  exists c, c ∈ entry_cpv_codes entry /\ c ∈ cpv_targets.

(** Normalisation of a candidate list: discard what is not purely numeric,
    left-pad to 8 characters, de-duplicate. *)
Definition spec_normalize (candidates : list string) : gset string :=
  list_to_set (map (Py.zfill 8) (List.filter Py.isdigit candidates)).

(** The two failures the specification lets through: the download error and
    the validation error of the target codes. *)
Definition sanctioned (e : exn) : bool :=
  match e with
  | RuntimeError_descarga => true
  | ValueError_sin_cpv => true
  | _ => false
  end.

(** ** A small world for the examples

    One archive with a non-feed member, a feed member that is listed but
    cannot be read, and a feed member holding [sample_entry]; a second
    archive whose first feed member is no XML at all.  The libraries of this
    world know these inputs only: other bytes are no archive, and in other
    bytes the parser finds no root element. *)

Definition sample_atom : bytes :=
  list_byte_of_string
    "<feed><entry><title>Obras de cubierta</title><updated>2024-03-05T10:00:00+01:00</updated><link href='https://example.org/t/1'/><ContractFolderStatus><ContractFolderID>EXP-1</ContractFolderID><ProcurementProject><RequiredCommodityClassification><ItemClassificationCode>45261215</ItemClassificationCode></RequiredCommodityClassification><RequiredCommodityClassification><ItemClassificationCode>45261215</ItemClassificationCode></RequiredCommodityClassification><RequiredCommodityClassification><ItemClassificationCode>09330000</ItemClassificationCode></RequiredCommodityClassification></ProcurementProject></ContractFolderStatus></entry></feed>".

(** An entry whose only code is 9330000, numerically the target 09330000. *)
Definition short_code_entry : Node :=
  el "entry"
    [ el "updated" [Text "2024-03-05T10:00:00+01:00"];
      el "ItemClassificationCode" [Text "9330000"] ].

Definition sample_zip : bytes := list_byte_of_string "PK: readme.txt, gone.atom, marzo.ATOM".

Definition not_xml : bytes := list_byte_of_string "not xml".

Definition sample_archive : ZipArchive :=
  {| namelist := ["readme.txt"; "gone.atom"; "marzo.ATOM"];
     read := fun name =>
       if String.eqb name "marzo.ATOM" then Ok sample_atom
       else if String.eqb name "readme.txt" then Ok not_xml
       else Raise KeyError |}.

Definition broken_zip : bytes := list_byte_of_string "PK: roto.atom, marzo.ATOM".

Definition broken_archive : ZipArchive :=
  {| namelist := ["roto.atom"; "marzo.ATOM"];
     read := fun name =>
       if String.eqb name "marzo.ATOM" then Ok sample_atom
       else if String.eqb name "roto.atom" then Ok not_xml
       else Raise KeyError |}.

(** An archive whose second member has the feed suffix and a bad CRC-32:
    [zf.read] raises BadZipFile on it. *)
Definition corrupt_zip : bytes := list_byte_of_string "PK: marzo.ATOM, roto.atom, abril.atom".

Definition corrupt_archive : ZipArchive :=
  {| namelist := ["marzo.ATOM"; "roto.atom"; "abril.atom"];
     read := fun name =>
       if String.eqb name "roto.atom" then Raise BadZipFile
       else if (String.eqb name "marzo.ATOM" || String.eqb name "abril.atom")%bool
       then Ok sample_atom
       else Raise KeyError |}.

Definition sample_env : Env :=
  {| ZipFile := fun b =>
       if bool_decide (b = sample_zip) then Ok sample_archive
       else if bool_decide (b = broken_zip) then Ok broken_archive
       else if bool_decide (b = corrupt_zip) then Ok corrupt_archive
       else Raise BadZipFile;
     fromstring := fun b =>
       if bool_decide (b = sample_atom) then Ok (Some (el "feed" [sample_entry]))
       else if bool_decide (b = []) then Raise XMLSyntaxError
       else Ok None;
     requests_get := fun _ _ => Ok sample_zip;
     fromisoformat := fun _ => Ok {| year := 2024; month := 3; day := 5 |};
     has_zoneinfo := true;
     today_madrid := Ok {| year := 2024; month := 3; day := 5 |};
     today_utc := {| year := 2024; month := 3; day := 5 |};
     strftime_Ym := fun _ => "202403";
     abspath := fun p => "/tmp/" +:+ p |}.

(** ** Further definitions: the download with a caller-chosen bound *)

(** [http_get_bytes(url, retries=retries)] *)
Definition http_get_bytes_retries (env : Env) (url : string) (retries : nat)
  : list event * result bytes :=
  http_get_attempts env url retries 0 retries.

(** The events of the failed attempts [i], [i+1], ..., [i+j-1] of a download
    bounded by [retries]: a request each, and a sleep after every attempt but
    the last one allowed. *)
Definition failed_attempts (url : string) (retries i j : nat) : list event :=
  flat_map (fun m => EvGet url m :: (if (m <? retries - 1)%nat then [EvSleep m] else []))
           (seq i j).

Definition is_get (e : event) : bool :=
  match e with
  | EvGet _ _ => true
  | _ => false
  end.

Definition is_sleep (e : event) : bool :=
  match e with
  | EvSleep _ => true
  | _ => false
  end.

(** A world in which the first two requests fail. *)
Definition flaky_env : Env :=
  {| ZipFile := ZipFile sample_env;
     fromstring := fromstring sample_env;
     requests_get := fun _ i => if (i <? 2)%nat then Raise RequestError else Ok sample_zip;
     fromisoformat := fromisoformat sample_env;
     has_zoneinfo := true;
     today_madrid := today_madrid sample_env;
     today_utc := today_utc sample_env;
     strftime_Ym := strftime_Ym sample_env;
     abspath := abspath sample_env |}.

(** A world without network. *)
Definition offline_env : Env :=
  {| ZipFile := ZipFile sample_env;
     fromstring := fromstring sample_env;
     requests_get := fun _ _ => Raise RequestError;
     fromisoformat := fromisoformat sample_env;
     has_zoneinfo := true;
     today_madrid := today_madrid sample_env;
     today_utc := today_utc sample_env;
     strftime_Ym := strftime_Ym sample_env;
     abspath := abspath sample_env |}.

(** ** Further definitions: parsing apart from selecting *)

(** The entries of the members the loop reads, member after member, or the
    exception of the first member that cannot be read or parsed. *)
Fixpoint collect_entries (env : Env) (zf : ZipArchive) (names : list string)
  : result (list Node) :=
  match names with
  | [] => Ok []
  | name :: rest =>
      if negb (is_feed_name name) then collect_entries env zf rest
      else
        match read zf name with
        | Raise KeyError => collect_entries env zf rest
        | Raise e => Raise e
        | Ok atom =>
            entries ← iter_entries env atom;
            more ← collect_entries env zf rest;
            Ok (entries ++ more)%list
        end
  end.

(** ** Further definitions: the same tree under other namespaces *)

(** The tree with the namespace URI of every element replaced by [f] of its
    name; local names, attributes and text stay. *)
Fixpoint relabel (f : QName -> string) (n : Node) : Node :=
  match n with
  | Element t a kids =>
      Element {| ns_uri := f t; local_name := local_name t |} a (map (relabel f) kids)
  | Text s => Text s
  | Comment s => Comment s
  | ProcInst t d => ProcInst t d
  end.

(** The Atom namespace on <entry>, <title>, <updated> and <link>, as the feed has it. *)
Definition atom_ns (t : QName) : string :=
  if (String.eqb (local_name t) "entry" || String.eqb (local_name t) "title"
      || String.eqb (local_name t) "updated" || String.eqb (local_name t) "link")%bool
  then "http://www.w3.org/2005/Atom"
  else "urn:dgpe:names:draft:codice:schema:xsd:CommonBasicComponents-2".

(** ** Further definitions: the CSV file

    [write_csv] writes through [csv.DictWriter] with the default dialect:
    comma as delimiter, the double quote as quote character, doubled inside
    a quoted field, CR LF after every record, and quotes around a field only
    when it holds a comma, a quote, a CR or an LF.  A field with a NUL
    character is left out of the model: older interpreters refuse it. *)

Definition ch_dq : ascii := ascii_of_nat 34.
Definition ch_cr : ascii := ascii_of_nat 13.
Definition ch_lf : ascii := ascii_of_nat 10.
Definition ch_nul : ascii := ascii_of_nat 0.

Fixpoint any_char (p : ascii -> bool) (s : string) : bool :=
  match s with
  | EmptyString => false
  | String c s' => p c || any_char p s'
  end.

(** Successive [write] calls: the texts one after the other. *)
Fixpoint str_concat (l : list string) : string :=
  match l with
  | [] => ""
  | x :: l' => x +:+ str_concat l'
  end.

Definition csv_special (c : ascii) : bool :=
  Ascii.eqb c "," || Ascii.eqb c ch_dq || Ascii.eqb c ch_cr || Ascii.eqb c ch_lf.

Fixpoint csv_double_quotes (s : string) : string :=
  match s with
  | EmptyString => EmptyString
  | String c s' =>
      if Ascii.eqb c ch_dq then String ch_dq (String ch_dq (csv_double_quotes s'))
      else String c (csv_double_quotes s')
  end.

Definition csv_field (s : string) : string :=
  if any_char csv_special s
  then String ch_dq (csv_double_quotes s +:+ String ch_dq EmptyString)
  else s.

(** [writer.writerow(fields)] *)
Definition csv_record (fields : list string) : string :=
  Py.join "," (map csv_field fields) +:+ String ch_cr (String ch_lf EmptyString).

Definition csv_cols : list string :=
  ["expediente"; "objeto"; "organo"; "estado"; "importe"; "cpv"; "fecha_updated"; "enlace"].

(** [{k: r.get(k, "") for k in cols}], in the order of [cols]. *)
Definition row_values (r : TenderRecord) : list string :=
  [expediente r; objeto r; organo r; estado r; importe r; cpv r; fecha_updated r; enlace r].

(** The text [write_csv(rows, path)] writes to the file. *)
Definition write_csv (rows : list TenderRecord) : string :=
  csv_record csv_cols +:+ str_concat (map (fun r => csv_record (row_values r)) rows).

Definition nul_free (s : string) : bool := negb (any_char (Ascii.eqb ch_nul) s).

(** A reader for such files, to say what a written file holds: fields are
    split at commas, records at CR LF, a field in quotes runs to its closing
    quote, and two quotes inside it stand for one. *)
Inductive csv_mode : Type :=
| AtStart       (* at the start of a field *)
| InPlain       (* inside a field without quotes *)
| InQuoted      (* inside a quoted field *)
| AfterQuote    (* just after a quote inside a quoted field *)
| AfterCR.      (* after the CR that ends a record *)

Fixpoint csv_read_from (s : string) (mode : csv_mode) (cur : string)
    (fields : list string) (records : list (list string)) : option (list (list string)) :=
  match s with
  | EmptyString =>
      match mode, fields with
      | AtStart, [] => Some records
      | _, _ => None
      end
  | String c rest =>
      match mode with
      | AtStart =>
          if Ascii.eqb c ch_dq then csv_read_from rest InQuoted "" fields records
          else if Ascii.eqb c "," then csv_read_from rest AtStart "" (fields ++ [""])%list records
          else if Ascii.eqb c ch_cr then csv_read_from rest AfterCR "" (fields ++ [""])%list records
          else if Ascii.eqb c ch_lf then None
          else csv_read_from rest InPlain (String c EmptyString) fields records
      | InPlain =>
          if Ascii.eqb c "," then csv_read_from rest AtStart "" (fields ++ [cur])%list records
          else if Ascii.eqb c ch_cr then csv_read_from rest AfterCR "" (fields ++ [cur])%list records
          else if Ascii.eqb c ch_dq || Ascii.eqb c ch_lf then None
          else csv_read_from rest InPlain (cur +:+ String c EmptyString) fields records
      | InQuoted =>
          if Ascii.eqb c ch_dq then csv_read_from rest AfterQuote cur fields records
          else csv_read_from rest InQuoted (cur +:+ String c EmptyString) fields records
      | AfterQuote =>
          if Ascii.eqb c ch_dq
          then csv_read_from rest InQuoted (cur +:+ String ch_dq EmptyString) fields records
          else if Ascii.eqb c "," then csv_read_from rest AtStart "" (fields ++ [cur])%list records
          else if Ascii.eqb c ch_cr then csv_read_from rest AfterCR "" (fields ++ [cur])%list records
          else None
      | AfterCR =>
          if Ascii.eqb c ch_lf then csv_read_from rest AtStart "" [] (records ++ [fields])%list
          else None
      end
  end.

(** What the reader does at a comma or a CR that ends the field [cur]. *)
Definition csv_at_delimiter (d : ascii) (rest cur : string) (fields : list string)
    (records : list (list string)) : option (list (list string)) :=
  if Ascii.eqb d "," then csv_read_from rest AtStart "" (fields ++ [cur])%list records
  else csv_read_from rest AfterCR "" (fields ++ [cur])%list records.

Definition csv_read (s : string) : option (list (list string)) :=
  csv_read_from s AtStart "" [] [].

(** A record whose fields need every kind of quoting. *)
Definition awkward_record : TenderRecord :=
  {| expediente := "EXP, 1/2024";
     objeto := String ch_dq ("Obras" +:+ String ch_dq (String ch_lf "de cubierta"));
     organo := "";
     estado := "PUB";
     importe := "1.234,56";
     cpv := "09330000;45261215";
     fecha_updated := "2024-03-05T10:00:00+01:00";
     enlace := "https://example.org/t?a=1&b=<2>" |}.

(** ** Further definitions: the rows of the HTML report *)

(** [html.escape(s)], with [quote=True]: the ampersand, the two angle
    brackets, the double quote and the apostrophe are replaced by their
    entities, the ampersand first, so no entity is escaped twice. *)
Definition html_escape_char (c : ascii) : string :=
  if Ascii.eqb c "&" then "&amp;"
  else if Ascii.eqb c "<" then "&lt;"
  else if Ascii.eqb c ">" then "&gt;"
  else if Ascii.eqb c ch_dq then "&quot;"
  else if Ascii.eqb c "'" then "&#x27;"
  else String c EmptyString.

Fixpoint html_escape (s : string) : string :=
  match s with
  | EmptyString => EmptyString
  | String c s' => html_escape_char c +:+ html_escape s'
  end.

Definition LF : string := String ch_lf EmptyString.
Definition DQ : string := String ch_dq EmptyString.

(** The f-string appended to [rows_html] for one row of the data frame. *)
Definition row_html (r : TenderRecord) : string :=
  str_concat
    [ LF; "            <tr>"; LF;
      "              <td>"; html_escape (organo r); "</td>"; LF;
      "              <td>"; html_escape (expediente r); "</td>"; LF;
      "              <td>"; html_escape (estado r); "</td>"; LF;
      "              <td style="; DQ; "text-align:right"; DQ; ">";
         html_escape (importe r); "</td>"; LF;
      "              <td>"; html_escape (cpv r); "</td>"; LF;
      "              <td>"; html_escape (fecha_updated r); "</td>"; LF;
      "              <td><a href="; DQ; html_escape (enlace r); DQ;
         " target="; DQ; "_blank"; DQ; " rel="; DQ; "noopener noreferrer"; DQ;
         ">Ver</a></td>"; LF;
      "              <td>"; html_escape (objeto r); "</td>"; LF;
      "            </tr>" ].

Definition no_rows_html : string :=
  str_concat
    [ "<tr><td colspan="; DQ; "8"; DQ; " style="; DQ;
      "text-align:center;padding:16px;color:#666;"; DQ; ">"; LF;
      "        No se han encontrado licitaciones para los CPV objetivo en la fecha indicada.</td></tr>" ].

(** The local [rows_html] of [render_html_report]; the data frame is the
    list of its rows, in order, or None. *)
Definition rows_html (df : option (list TenderRecord)) : string :=
  match df with
  | Some (r :: rs) => str_concat (map row_html (r :: rs))
  | _ => no_rows_html
  end.

Fixpoint count_char (c : ascii) (s : string) : nat :=
  match s with
  | EmptyString => 0
  | String a s' => (if Ascii.eqb a c then 1 else 0) + count_char c s'
  end.

Example strip_example : Py.strip "  123 " = "123".
Proof. reflexivity. Qed.

Example zfill_example : Py.zfill 8 "123" = "00000123".
Proof. reflexivity. Qed.

Example zfill_sign_example : Py.zfill 5 "-42" = "-0042".
Proof. reflexivity. Qed.

Example zfill_long_example : Py.zfill 8 "123456789" = "123456789".
Proof. reflexivity. Qed.

Example endswith_example : Py.endswith (Py.lower "Feed_01.ATOM") ".atom" = true.
Proof. reflexivity. Qed.

Example sorted_example :
  Py.sorted (Py.set_of ["45261215"; "45261215"; "09330000"]) = ["09330000"; "45261215"].
Proof. vm_compute. reflexivity. Qed.

Example sample_codes :
  entry_cpv_codes sample_entry = ["45261215"; "45261215"; "09330000"].
Proof. reflexivity. Qed.

Example sample_fields :
  extract_fields sample_entry =
  Ok {| expediente := "E"; objeto := "O"; organo := ""; estado := "E";
        importe := ""; cpv := "09330000;45261215"; fecha_updated := "2";
        enlace := "h" |}.
Proof. vm_compute. reflexivity. Qed.

Example isoformat_example :
  isoformat {| year := 2024; month := 3; day := 5 |} = "2024-03-05".
Proof. vm_compute. reflexivity. Qed.

Example normalize_abc_123 : normalize_cpv (Some ["abc"; "123"]) = {["00000123"]}.
Proof. vm_compute. reflexivity. Qed.

Example normalize_default : normalize_cpv None = list_to_set DEFAULT_CPV.
Proof. vm_compute. reflexivity. Qed.

Example sample_iter_entries : iter_entries sample_env sample_atom = Ok [sample_entry].
Proof. vm_compute. reflexivity. Qed.

Example sample_process_real_date :
  process_zip_bytes sample_env sample_zip "2024-03-05" {["45261215"]} = Ok [].
Proof. vm_compute. reflexivity. Qed.

Example sample_process_one_char :
  process_zip_bytes sample_env sample_zip "2" {["45261215"]} = Ok [record_of sample_entry].
Proof. vm_compute. reflexivity. Qed.

(** ** The helpers never raise *)

Lemma bind_Ok {A B : Type} (a : A) (k : A -> result B) : (Ok a ≫= k) = k a.
Proof. reflexivity. Qed.

Lemma bind_inv_Ok {A B : Type} (r : result A) (k : A -> result B) (b : B) :
  (r ≫= k) = Ok b -> exists a, r = Ok a /\ k a = Ok b.
Proof. destruct r as [a|e]; simpl; [eauto | discriminate]. Qed.

Lemma text1_total (node : Node) (xpath_expr : expr) :
  text1 node xpath_expr = Ok (text1_value node xpath_expr).
Proof.
  unfold text1, text1_value.
  destruct (eval node xpath_expr) as [s|l|l].
  - destruct s; reflexivity.
  - destruct l; reflexivity.
  - destruct l; reflexivity.
Qed.

Lemma entry_is_for_date_total (entry : Node) (iso_date : string) :
  entry_is_for_date entry iso_date = Ok (date_test iso_date entry).
Proof. unfold entry_is_for_date. rewrite text1_total. reflexivity. Qed.

Lemma extract_fields_total (entry : Node) :
  extract_fields entry = Ok (record_of entry).
Proof. unfold extract_fields. rewrite !text1_total. reflexivity. Qed.

(** ** The two loops *)

Lemma scan_entries_eq (iso_date : string) (cpv_targets : gset string)
    (entries : list Node) (found : list TenderRecord) :
  scan_entries iso_date cpv_targets entries found =
  Ok (found ++ map record_of (List.filter (selected iso_date cpv_targets) entries))%list.
Proof.
  revert found. induction entries as [|e rest IH]; intros found; simpl.
  - by rewrite app_nil_r.
  - rewrite entry_is_for_date_total, bind_Ok. unfold selected at 1, code_test.
    destruct (date_test iso_date e); simpl.
    + case_bool_decide; simpl.
      * apply IH.
      * rewrite extract_fields_total, bind_Ok, IH. by rewrite <- app_assoc.
    + apply IH.
Qed.

Lemma scan_members_Ok (env : Env) (zf : ZipArchive) (iso_date : string)
    (cpv_targets : gset string) (names : list string) (found out : list TenderRecord) :
  scan_members env zf iso_date cpv_targets names found = Ok out ->
  out = (found ++ map record_of
           (List.filter (selected iso_date cpv_targets)
                        (flat_map (member_entries env zf) names)))%list.
Proof.
  revert found. induction names as [|name rest IH]; intros found; simpl.
  - intros [= <-]. by rewrite app_nil_r.
  - unfold member_entries at 1, is_feed_name.
    destruct (Py.endswith (Py.lower name) ".atom"); simpl; [|apply IH].
    destruct (read zf name) as [atom|e].
    + destruct (iter_entries env atom) as [es|e]; simpl; [|discriminate].
      rewrite scan_entries_eq. simpl. intros H. apply IH in H.
      rewrite H, List.filter_app, map_app. by rewrite app_assoc.
    + destruct e; try discriminate. apply IH.
Qed.

Lemma process_zip_bytes_Ok (env : Env) (zip_bytes : bytes) (iso_date : string)
    (cpv_targets : gset string) (found : list TenderRecord) :
  process_zip_bytes env zip_bytes iso_date cpv_targets = Ok found ->
  exists zf, ZipFile env zip_bytes = Ok zf /\
    found = map record_of
              (List.filter (selected iso_date cpv_targets) (parsed_entries env zf)).
Proof.
  unfold process_zip_bytes. intros H.
  apply bind_inv_Ok in H as (zf & Hzf & H).
  exists zf. split; [done|]. by apply scan_members_Ok in H.
Qed.

(** ** Strings: lengths and prefixes *)

Lemma str_length_app (a b : string) :
  String.length (a +:+ b) = String.length a + String.length b.
Proof. induction a as [|c a IH]; simpl; [done | by rewrite IH]. Qed.

Lemma prefix_length (p s : string) :
  String.prefix p s = true -> String.length p <= String.length s.
Proof.
  revert s. induction p as [|a p IH]; intros s H; simpl; [lia|].
  destruct s as [|b s]; simpl in H; [discriminate|].
  destruct (ascii_dec a b); [|discriminate].
  apply IH in H. simpl. lia.
Qed.

Lemma prefix_first_char (p s : string) :
  String.prefix p (first_char s) = true -> String.prefix p s = true.
Proof.
  destruct s as [|c s]; simpl; [done|].
  destruct p as [|a p]; simpl; [done|].
  destruct (ascii_dec a c); [|done].
  destruct p; [intros _; by destruct s | discriminate].
Qed.

Lemma first_char_length (s : string) : String.length (first_char s) <= 1.
Proof. destruct s; simpl; lia. Qed.

Lemma zeros_length (n : nat) : String.length (Py.zeros n) = n.
Proof. induction n; simpl; congruence. Qed.

Lemma zfill_length (width : nat) (s : string) :
  width <= String.length (Py.zfill width s).
Proof.
  unfold Py.zfill. destruct (Nat.leb_spec width (String.length s)) as [H|H]; [done|].
  destruct s as [|c rest]; simpl in *.
  - rewrite zeros_length. lia.
  - destruct (_ || _); simpl; rewrite str_length_app, zeros_length; simpl; lia.
Qed.

Lemma zfill_long (width : nat) (s : string) :
  width <= String.length s -> Py.zfill width s = s.
Proof. unfold Py.zfill. intros H. by apply Nat.leb_le in H as ->. Qed.

Lemma isoformat_length (d : date) : 10 <= String.length (isoformat d).
Proof.
  unfold isoformat. rewrite !str_length_app. simpl.
  pose proof (zfill_length 4 (pretty (year d))).
  pose proof (zfill_length 2 (pretty (month d))).
  pose proof (zfill_length 2 (pretty (day d))).
  lia.
Qed.

(** ** The entry predicates *)

Lemma text1_value_updated (entry : Node) :
  text1_value entry (StringChild "updated") = first_char (updated_timestamp entry).
Proof. reflexivity. Qed.

(** The date test the code applies sees one character of the timestamp. *)
Lemma date_test_spec (iso_date : string) (entry : Node) :
  date_test iso_date entry = true <->
  updated_timestamp entry <> "" /\
  String.prefix iso_date (first_char (updated_timestamp entry)) = true.
Proof.
  unfold date_test. rewrite text1_value_updated. unfold Py.startswith.
  destruct (updated_timestamp entry) as [|c u]; simpl.
  - split; [discriminate | intros [H _]; done].
  - split; [intros H; split; [discriminate | done] | intros [_ H]; done].
Qed.

Lemma date_test_sound (iso_date : string) (entry : Node) :
  date_test iso_date entry = true -> spec_date_match entry iso_date.
Proof.
  rewrite date_test_spec. intros [Hne Hp]. split; [done|].
  by apply prefix_first_char.
Qed.

Lemma date_test_two_chars (iso_date : string) (entry : Node) :
  2 <= String.length iso_date -> date_test iso_date entry = false.
Proof.
  intros Hlen. destruct (date_test iso_date entry) eqn:E; [|done].
  apply date_test_spec in E as [_ Hp]. apply prefix_length in Hp.
  pose proof (first_char_length (updated_timestamp entry)). lia.
Qed.

Lemma code_test_spec (cpv_targets : gset string) (entry : Node) :
  code_test cpv_targets entry = true <-> spec_code_match entry cpv_targets.
Proof.
  unfold code_test, spec_code_match, Py.set_of. rewrite negb_true_iff, bool_decide_eq_false.
  split.
  - intros H. apply set_choose_L in H as [c Hc]. exists c.
    apply elem_of_intersection in Hc as [Hc Ht].
    by apply elem_of_list_to_set in Hc.
  - intros (c & Hc & Ht) Hempty.
    apply (not_elem_of_empty (C := gset string) c). rewrite <- Hempty.
    apply elem_of_intersection. split; [by apply elem_of_list_to_set | done].
Qed.

Lemma selected_sound (iso_date : string) (cpv_targets : gset string) (entry : Node) :
  selected iso_date cpv_targets entry = true ->
  spec_date_match entry iso_date /\ spec_code_match entry cpv_targets.
Proof.
  unfold selected. rewrite andb_true_iff. intros [Hd Hc]. split.
  - by apply date_test_sound.
  - by apply code_test_spec.
Qed.

Lemma filter_sublist {A : Type} (f : A -> bool) (l : list A) :
  List.filter f l `sublist_of` l.
Proof.
  induction l as [|x l IH]; simpl; [constructor|].
  destruct (f x); by constructor.
Qed.

Lemma filter_Forall {A : Type} (f : A -> bool) (l : list A) :
  Forall (fun x => f x = true) (List.filter f l).
Proof.
  induction l as [|x l IH]; simpl; [constructor|].
  destruct (f x) eqn:E; [by constructor | done].
Qed.

Lemma Forall2_record_of (es : list Node) :
  Forall2 (fun r e => extract_fields e = Ok r) (map record_of es) es.
Proof.
  induction es as [|e es IH]; simpl; constructor; [apply extract_fields_total | done].
Qed.

(** C1. Whenever the pipeline returns, its records are, one for one and in
    order, the extracted fields of a sub-sequence of the parsed entries, and
    every entry of that sub-sequence has a non-empty "updated" timestamp
    that starts with the target date and a classification code in the target
    set; no other record is in the output. *)
Theorem C1_output_matches_entries (env : Env) (zip_bytes : bytes) (iso_date : string)
    (cpv_targets : gset string) (found : list TenderRecord) :
  process_zip_bytes env zip_bytes iso_date cpv_targets = Ok found ->
  exists (zf : ZipArchive) (es : list Node),
    ZipFile env zip_bytes = Ok zf /\
    es `sublist_of` parsed_entries env zf /\
    Forall2 (fun r e => extract_fields e = Ok r) found es /\
    Forall (fun e => spec_date_match e iso_date /\ spec_code_match e cpv_targets) es.
Proof.
  intros H. apply process_zip_bytes_Ok in H as (zf & Hzf & ->).
  exists zf, (List.filter (selected iso_date cpv_targets) (parsed_entries env zf)).
  split; [done|]. split; [apply filter_sublist|]. split; [apply Forall2_record_of|].
  eapply Forall_impl; [apply filter_Forall|].
  intros e He. by apply selected_sound.
Qed.

Lemma C1_witness :
  process_zip_bytes sample_env sample_zip "2" {["45261215"]} = Ok [record_of sample_entry] /\
  exists (zf : ZipArchive) (es : list Node),
    ZipFile sample_env sample_zip = Ok zf /\
    es `sublist_of` parsed_entries sample_env zf /\
    Forall2 (fun r e => extract_fields e = Ok r) [record_of sample_entry] es /\
    Forall (fun e => spec_date_match e "2" /\ spec_code_match e {["45261215"]}) es.
Proof.
  split; [vm_compute; reflexivity|].
  apply (C1_output_matches_entries sample_env sample_zip "2" {["45261215"]}).
  vm_compute; reflexivity.
Defined.

(** The date predicate is false for every entry at every calendar date. *)
Lemma entry_is_for_date_at_a_date (entry : Node) (d : date) :
  entry_is_for_date entry (isoformat d) = Ok false.
Proof.
  rewrite entry_is_for_date_total. f_equal. apply date_test_two_chars.
  pose proof (isoformat_length d). lia.
Qed.

(** C2. At an entry whose "updated" timestamp is
    2024-03-05T10:00:00+01:00 and the target date 2024-03-05 the timestamp
    is non-empty and starts with the ISO date, and the date predicate
    answers False: [text1] hands it the first character of the timestamp. *)
Theorem C2_date_predicate_rejects_prefix_match :
  updated_timestamp sample_entry = "2024-03-05T10:00:00+01:00" /\
  isoformat {| year := 2024; month := 3; day := 5 |} = "2024-03-05" /\
  spec_date_match sample_entry "2024-03-05" /\
  text1 sample_entry (StringChild "updated") = Ok "2" /\
  entry_is_for_date sample_entry "2024-03-05" = Ok false.
Proof.
  split; [reflexivity|]. split; [vm_compute; reflexivity|].
  split; [split; [discriminate | reflexivity]|].
  split; reflexivity.
Qed.

(** ** Text nodes below an entry *)

Lemma Node_tree_ind (P : Node -> Prop) :
  (forall t a kids, Forall P kids -> P (Element t a kids)) ->
  (forall s, P (Text s)) ->
  (forall s, P (Comment s)) ->
  (forall t d, P (ProcInst t d)) ->
  forall n, P n.
Proof.
  intros He Ht Hc Hp. fix IH 1. intros [t a kids|s|s|t d]; [|done..].
  apply He. induction kids as [|k kids IHk]; constructor; [apply IH | apply IHk].
Qed.

Lemma elem_of_flat_map {A B : Type} (f : A -> list B) (l : list A) (y : B) :
  y ∈ flat_map f l <-> exists x, x ∈ l /\ y ∈ f x.
Proof.
  rewrite list_elem_of_In, in_flat_map.
  split; intros (x & H1 & H2); exists x; by rewrite ?list_elem_of_In in *.
Qed.

Lemma text_nodes_spec (nm : string) (n : Node) :
  forall (under : bool) (c : string),
    c ∈ text_nodes nm under n <->
    (under = true /\ n = Text c) \/
    (exists d, d ∈ n :: descendants n /\ named nm d = true /\ Text c ∈ children d).
Proof.
  induction n as [t a kids IH|s|s|t0 d0] using Node_tree_ind; intros under c; simpl.
  - rewrite elem_of_flat_map. split.
    + intros (k & Hk & Hc). rewrite Forall_forall in IH.
      apply (IH k Hk) in Hc as [[Hu ->]|(d & Hd & Hn & Ht)]; right.
      * exists (Element t a kids). split; [left|]. done.
      * exists d. split; [|done]. right. apply elem_of_flat_map. eauto.
    + intros [[_ [=]]|(d & Hd & Hn & Ht)].
      rewrite Forall_forall in IH.
      apply elem_of_cons in Hd as [->|Hd].
      * simpl in *. exists (Text c). split; [done|]. apply IH; [done|]. by left.
      * apply elem_of_flat_map in Hd as (k & Hk & Hd).
        exists k. split; [done|]. apply IH; [done|]. right. eauto.
  - destruct under; simpl.
    + rewrite list_elem_of_singleton. split.
      * intros ->. by left.
      * intros [[_ [= ->]]|(d & Hd & Hn & Ht)]; [done|].
        apply list_elem_of_singleton in Hd as ->. discriminate.
    + split; [by intros ?%elem_of_nil|].
      intros [[[=] _]|(d & Hd & Hn & Ht)].
      apply list_elem_of_singleton in Hd as ->. discriminate.
  - split; [by intros ?%elem_of_nil|].
    intros [[_ [=]]|(d & Hd & Hn & Ht)].
    apply list_elem_of_singleton in Hd as ->. discriminate.
  - split; [by intros ?%elem_of_nil|].
    intros [[_ [=]]|(d & Hd & Hn & Ht)].
    apply list_elem_of_singleton in Hd as ->. discriminate.
Qed.

Lemma descendant_text_spec (nm : string) (n : Node) (c : string) :
  c ∈ descendant_text nm n <->
  exists d, d ∈ descendants n /\ named nm d = true /\ Text c ∈ children d.
Proof.
  unfold descendant_text. rewrite elem_of_flat_map. split.
  - intros (k & Hk & Hc). apply text_nodes_spec in Hc as [[[=] _]|(d & Hd & Hn & Ht)].
    exists d. split; [|done]. destruct n; simpl in *; try by apply elem_of_nil in Hk.
    apply elem_of_flat_map. eauto.
  - intros (d & Hd & Hn & Ht). destruct n; simpl in *; try by apply elem_of_nil in Hd.
    apply elem_of_flat_map in Hd as (k & Hk & Hd). exists k. split; [done|].
    apply text_nodes_spec. right. eauto.
Qed.

(** ** The order of [sorted] *)

Lemma ascii_compare_refl (a : ascii) : (a ?= a)%char = Eq.
Proof. unfold Ascii.compare. apply N.compare_refl. Qed.

Lemma ascii_compare_trans (a b c : ascii) (o : comparison) :
  (a ?= b)%char = o -> (b ?= c)%char = o -> (a ?= c)%char = o.
Proof.
  unfold Ascii.compare. destruct o.
  - rewrite !N.compare_eq_iff. congruence.
  - rewrite !N.compare_lt_iff. lia.
  - rewrite !N.compare_gt_iff. lia.
Qed.

Lemma str_le_cons (a b : ascii) (s t : string) :
  Py.str_le (String a s) (String b t) <->
  (a ?= b)%char = Lt \/ (a = b /\ Py.str_le s t).
Proof.
  unfold Py.str_le, String.leb. simpl.
  destruct (a ?= b)%char eqn:E.
  - apply Ascii.compare_eq_iff in E as ->. split; [by right | by intros [?|[_ ?]]].
  - split; [by left | done].
  - split; [done|]. intros [?|[-> _]]; [done|]. by rewrite ascii_compare_refl in E.
Qed.

Global Instance str_le_trans : Transitive Py.str_le.
Proof.
  intros s. induction s as [|a s IH]; intros [|b t] [|c u]; try done.
  rewrite !str_le_cons. intros [H1|[-> H1]] [H2|[-> H2]].
  - left. by apply (ascii_compare_trans a b c).
  - by left.
  - by left.
  - right. split; [done|]. by apply (IH t u).
Qed.

Global Instance str_le_total : Total Py.str_le.
Proof. intros a b. apply String.leb_total. Qed.

Global Instance str_le_antisym : AntiSymm (=) Py.str_le.
Proof. intros a b. apply String.leb_antisym. Qed.

Lemma sorted_elem_of (s : gset string) (c : string) : c ∈ Py.sorted s <-> c ∈ s.
Proof. unfold Py.sorted. by rewrite merge_sort_Permutation, elem_of_elements. Qed.

Lemma sorted_NoDup (s : gset string) : NoDup (Py.sorted s).
Proof. unfold Py.sorted. rewrite merge_sort_Permutation. apply NoDup_elements. Qed.

Lemma sorted_StronglySorted (s : gset string) : StronglySorted Py.str_le (Py.sorted s).
Proof. apply StronglySorted_merge_sort; apply _. Qed.

Lemma entry_cpv_codes_eq (entry : Node) :
  entry_cpv_codes entry = descendant_text "ItemClassificationCode" entry.
Proof.
  unfold entry_cpv_codes, texts. simpl.
  induction (descendant_text "ItemClassificationCode" entry) as [|c l IH]; simpl;
    [done | by rewrite IH].
Qed.

(** C3. The [cpv] field of the extracted record is the ';'-join of a list
    that has no duplicates, is increasing in code-point order and holds
    exactly the text values of the ItemClassificationCode elements anywhere
    beneath the entry; with the codes 45261215, 45261215, 09330000 the field
    is "09330000;45261215". *)
Theorem C3_cpv_field_sorted_distinct (entry : Node) (r : TenderRecord) :
  extract_fields entry = Ok r ->
  (exists codes : list string,
     cpv r = Py.join ";" codes /\
     NoDup codes /\
     StronglySorted Py.str_le codes /\
     forall c, c ∈ codes <->
       exists d, d ∈ descendants entry /\
                 named "ItemClassificationCode" d = true /\
                 Text c ∈ children d) /\
  (entry_cpv_codes entry = ["45261215"; "45261215"; "09330000"] ->
   cpv r = "09330000;45261215").
Proof.
  rewrite extract_fields_total. intros [= <-]. split.
  - exists (Py.sorted (Py.set_of (entry_cpv_codes entry))).
    split; [reflexivity|]. split; [apply sorted_NoDup|].
    split; [apply sorted_StronglySorted|].
    intros c. rewrite sorted_elem_of. unfold Py.set_of.
    rewrite elem_of_list_to_set, entry_cpv_codes_eq. apply descendant_text_spec.
  - intros H. simpl. rewrite H. vm_compute. reflexivity.
Qed.

Lemma C3_witness :
  extract_fields sample_entry = Ok (record_of sample_entry) /\
  cpv (record_of sample_entry) = "09330000;45261215".
Proof.
  split; [apply extract_fields_total|].
  apply (C3_cpv_field_sorted_distinct sample_entry (record_of sample_entry));
    reflexivity.
Defined.

(** ** Field extraction *)

(** C8. Field extraction returns a record for every entry, and each of the
    eight fields is the empty string when its query selects no node; so an
    entry without a title element has [objeto = ""]. *)
Theorem C8_extract_fields_never_raises (entry : Node) :
  exists r : TenderRecord,
    extract_fields entry = Ok r /\
    (child_elements "title" entry = [] -> objeto r = "") /\
    (child_elements "updated" entry = [] -> fecha_updated r = "") /\
    (child_attributes "link" "href" entry = [] -> enlace r = "") /\
    (descendant_elements "ContractFolderID" entry = [] -> expediente r = "") /\
    (descendant_elements "ContractingPartyName" entry = [] -> organo r = "") /\
    (descendant_elements "TotalAmount" entry = [] -> importe r = "") /\
    (descendant_elements "ContractFolderStatus" entry = [] -> estado r = "") /\
    (descendant_text "ItemClassificationCode" entry = [] -> cpv r = "").
Proof.
  exists (record_of entry). split; [apply extract_fields_total|].
  repeat split; intros H; simpl; unfold text1_value; simpl; rewrite ?H; try reflexivity.
  rewrite entry_cpv_codes_eq, H. vm_compute. reflexivity.
Qed.

Example entry_without_title :
  extract_fields (el "entry" [el "updated" [Text "2024-03-05"]]) =
  Ok {| expediente := ""; objeto := ""; organo := ""; estado := ""; importe := "";
        cpv := ""; fecha_updated := "2"; enlace := "" |}.
Proof. vm_compute. reflexivity. Qed.

(** ** Code matching *)

(** C10. The codes of an entry are compared as they stand in the feed: when
    every code of the entry differs, as a string, from every target, the
    code test fails and the loop passes over the entry without adding a
    record. *)
Theorem C10_codes_compared_verbatim (iso_date : string) (cpv_targets : gset string)
    (entry : Node) :
  (forall c t, c ∈ entry_cpv_codes entry -> t ∈ cpv_targets -> c <> t) ->
  code_test cpv_targets entry = false /\
  forall (rest : list Node) (found : list TenderRecord),
    scan_entries iso_date cpv_targets (entry :: rest) found =
    scan_entries iso_date cpv_targets rest found.
Proof.
  intros Hdiff.
  assert (Hc : code_test cpv_targets entry = false).
  { destruct (code_test cpv_targets entry) eqn:E; [|done].
    apply code_test_spec in E as (c & Hc & Ht). by destruct (Hdiff c c Hc Ht). }
  split; [done|]. intros rest found.
  rewrite !scan_entries_eq. simpl. unfold selected at 1. rewrite Hc.
  by rewrite andb_false_r.
Qed.

Lemma C10_witness :
  normalize_cpv (Some ["9330000"]) = {["09330000"]} /\
  entry_cpv_codes short_code_entry = ["9330000"] /\
  scan_entries "2" {["09330000"]} [short_code_entry] [] = Ok [].
Proof.
  split; [vm_compute; reflexivity|]. split; [reflexivity|].
  destruct (C10_codes_compared_verbatim "2" {["09330000"]} short_code_entry) as [_ H].
  - intros c t Hc Ht.
    apply list_elem_of_singleton in Hc. apply elem_of_singleton in Ht.
    subst c t. discriminate.
  - rewrite H. reflexivity.
Defined.

(** ** Feed parsing *)

(** C6. When the recovering parser finds no root element in the bytes of a
    feed, [etree.fromstring] returns None and [iter_entries] raises
    AttributeError; the run over an archive with such a member ends with
    that exception. *)
Theorem C6_iter_entries_raises_without_root (env : Env) (atom_bytes : bytes) :
  fromstring env atom_bytes = Ok None ->
  iter_entries env atom_bytes = Raise AttributeError /\
  forall (zf : ZipArchive) (name : string) (rest : list string) (iso_date : string)
         (cpv_targets : gset string) (found : list TenderRecord),
    is_feed_name name = true ->
    read zf name = Ok atom_bytes ->
    scan_members env zf iso_date cpv_targets (name :: rest) found = Raise AttributeError.
Proof.
  intros H.
  assert (Hit : iter_entries env atom_bytes = Raise AttributeError).
  { unfold iter_entries. by rewrite H. }
  split; [done|]. intros zf name rest iso_date cpv_targets found Hfeed Hread.
  simpl. unfold is_feed_name in Hfeed. by rewrite Hfeed, Hread, Hit.
Qed.

Lemma C6_witness :
  fromstring sample_env not_xml = Ok None /\
  iter_entries sample_env not_xml = Raise AttributeError.
Proof.
  split; [vm_compute; reflexivity|].
  apply (C6_iter_entries_raises_without_root sample_env not_xml).
  vm_compute; reflexivity.
Defined.

Example broken_member_ends_the_run :
  process_zip_bytes sample_env broken_zip "2" {["45261215"]} = Raise AttributeError.
Proof. vm_compute. reflexivity. Qed.

Lemma iter_entries_syntax_error (env : Env) (atom_bytes : bytes) (e : exn) :
  fromstring env atom_bytes = Raise e -> iter_entries env atom_bytes = Raise e.
Proof. intros H. unfold iter_entries. by rewrite H. Qed.

Lemma iter_entries_with_root (env : Env) (atom_bytes : bytes) (root : Node) :
  fromstring env atom_bytes = Ok (Some root) ->
  iter_entries env atom_bytes = Ok (all_elements "entry" root).
Proof. intros H. unfold iter_entries. by rewrite H. Qed.

(** ** The archive loop *)

Lemma member_entries_non_feed (env : Env) (zf : ZipArchive) (name : string) :
  is_feed_name name = false -> member_entries env zf name = [].
Proof. intros H. unfold member_entries. by rewrite H. Qed.

Lemma member_entries_KeyError (env : Env) (zf : ZipArchive) (name : string) :
  read zf name = Raise KeyError -> member_entries env zf name = [].
Proof. intros H. unfold member_entries. rewrite H. by destruct (is_feed_name name). Qed.

Lemma scan_members_passes (env : Env) (zf : ZipArchive) (iso_date : string)
    (cpv_targets : gset string) (names : list string) (found : list TenderRecord) :
  (forall name, name ∈ names -> is_feed_name name = true -> member_passes env zf name) ->
  scan_members env zf iso_date cpv_targets names found =
  Ok (found ++ map record_of
        (List.filter (selected iso_date cpv_targets)
                     (flat_map (member_entries env zf) names)))%list.
Proof.
  revert found. induction names as [|name rest IH]; intros found Hall; simpl.
  - by rewrite app_nil_r.
  - assert (Hrest : forall n, n ∈ rest -> is_feed_name n = true -> member_passes env zf n).
    { intros n Hn. apply Hall. by right. }
    pose proof (Hall name ltac:(by left)) as Hname.
    unfold member_entries at 1. unfold is_feed_name in *.
    destruct (Py.endswith (Py.lower name) ".atom"); simpl; [|by apply IH].
    destruct (Hname eq_refl) as [Hk|(atom & root & Hread & Hroot)].
    + rewrite Hk. by apply IH.
    + rewrite Hread, (iter_entries_with_root _ _ _ Hroot). simpl.
      rewrite scan_entries_eq. simpl. rewrite IH by done.
      rewrite List.filter_app, map_app. by rewrite app_assoc.
Qed.

Lemma scan_members_skips (env : Env) (zf : ZipArchive) (iso_date : string)
    (cpv_targets : gset string) (names : list string) (found : list TenderRecord) :
  scan_members env zf iso_date cpv_targets names found =
  scan_members env zf iso_date cpv_targets (List.filter (member_is_read zf) names) found.
Proof.
  revert found. induction names as [|name rest IH]; intros found; simpl; [done|].
  unfold member_is_read at 1, is_feed_name.
  destruct (Py.endswith (Py.lower name) ".atom") eqn:E; simpl; [|apply IH].
  destruct (read zf name) as [atom|e] eqn:R.
  - simpl. rewrite E, R.
    destruct (iter_entries env atom) as [es|e]; simpl; [|done].
    destruct (scan_entries iso_date cpv_targets es found) as [found'|e]; simpl; [apply IH | done].
  - destruct e; simpl; rewrite ?E, ?R; first [done | apply IH].
Qed.

Lemma scan_members_app (env : Env) (zf : ZipArchive) (iso_date : string)
    (cpv_targets : gset string) (names1 names2 : list string) (found : list TenderRecord) :
  scan_members env zf iso_date cpv_targets (names1 ++ names2)%list found =
  (found' ← scan_members env zf iso_date cpv_targets names1 found;
   scan_members env zf iso_date cpv_targets names2 found').
Proof.
  revert found. induction names1 as [|name rest IH]; intros found; simpl; [done|].
  destruct (negb (Py.endswith (Py.lower name) ".atom")); [apply IH|].
  destruct (read zf name) as [atom|e].
  - destruct (iter_entries env atom) as [es|e]; simpl; [|done].
    destruct (scan_entries iso_date cpv_targets es found) as [found'|e]; simpl; [apply IH | done].
  - destruct e; first [done | apply IH].
Qed.

(** C5. A listed member with the feed suffix whose read raises anything but
    KeyError is not passed over.  When the archive opens and the members
    listed before it pass, the run over the archive ends with the exception
    of that read, whatever follows in the archive: what the loop catches is
    KeyError alone. *)
Theorem C5_read_failure_ends_the_run (env : Env) (zip_bytes : bytes) (iso_date : string)
    (cpv_targets : gset string) (zf : ZipArchive) (before after : list string)
    (name : string) (e : exn) :
  ZipFile env zip_bytes = Ok zf ->
  namelist zf = (before ++ name :: after)%list ->
  (forall n, n ∈ before -> is_feed_name n = true -> member_passes env zf n) ->
  is_feed_name name = true ->
  read zf name = Raise e ->
  e <> KeyError ->
  process_zip_bytes env zip_bytes iso_date cpv_targets = Raise e.
Proof.
  intros Hzf Hnames Hbefore Hfeed Hread Hne.
  unfold process_zip_bytes. rewrite Hzf. simpl. rewrite Hnames, scan_members_app.
  rewrite (scan_members_passes env zf iso_date cpv_targets before [] Hbefore). simpl.
  unfold is_feed_name in Hfeed. rewrite Hfeed, Hread. simpl.
  by destruct e.
Qed.

Lemma C5_witness :
  ZipFile sample_env corrupt_zip = Ok corrupt_archive /\
  namelist corrupt_archive = ["marzo.ATOM"; "roto.atom"; "abril.atom"] /\
  read corrupt_archive "roto.atom" = Raise BadZipFile /\
  sanctioned BadZipFile = false /\
  process_zip_bytes sample_env corrupt_zip "2" {["45261215"]} = Raise BadZipFile.
Proof.
  split; [vm_compute; reflexivity|]. split; [reflexivity|]. split; [reflexivity|].
  split; [reflexivity|].
  apply (C5_read_failure_ends_the_run sample_env corrupt_zip "2" {["45261215"]}
           corrupt_archive ["marzo.ATOM"] ["abril.atom"] "roto.atom" BadZipFile).
  - vm_compute; reflexivity.
  - reflexivity.
  - intros n Hn _. apply list_elem_of_singleton in Hn as ->.
    right. exists sample_atom, (el "feed" [sample_entry]). split; vm_compute; reflexivity.
  - vm_compute; reflexivity.
  - reflexivity.
  - discriminate.
Defined.

(** Without the corrupt member the same archive gives two records. *)
Example corrupt_member_removed :
  scan_members sample_env corrupt_archive "2" {["45261215"]} ["marzo.ATOM"; "abril.atom"] [] =
  Ok [record_of sample_entry; record_of sample_entry].
Proof. vm_compute. reflexivity. Qed.

(** ** Target codes *)

Lemma digit_not_space (c : ascii) : Py.ch_isdigit c = true -> Py.ch_isspace c = false.
Proof.
  destruct c as [b0 b1 b2 b3 b4 b5 b6 b7].
  destruct b0, b1, b2, b3, b4, b5, b6, b7; vm_compute; congruence.
Qed.

Lemma digit_not_sign (c : ascii) :
  Py.ch_isdigit c = true -> (Ascii.eqb c "+" || Ascii.eqb c "-")%bool = false.
Proof.
  destruct c as [b0 b1 b2 b3 b4 b5 b6 b7].
  destruct b0, b1, b2, b3, b4, b5, b6, b7; vm_compute; congruence.
Qed.

Lemma isdigit_all_chars (s : string) :
  Py.isdigit s = true <-> s <> "" /\ Py.all_chars Py.ch_isdigit s = true.
Proof. destruct s; simpl; split; try done; intros [? ?]; done. Qed.

Lemma rstrip_digits (s : string) :
  Py.all_chars Py.ch_isdigit s = true -> Py.rstrip s = s.
Proof.
  induction s as [|c s IH]; simpl; [done|].
  rewrite andb_true_iff. intros [Hc Hs]. rewrite (IH Hs).
  destruct s; [by rewrite (digit_not_space c Hc) | done].
Qed.

Lemma strip_digits (s : string) : Py.isdigit s = true -> Py.strip s = s.
Proof.
  intros [Hne Hall]%isdigit_all_chars. unfold Py.strip.
  destruct s as [|c s]; [done|]. simpl in Hall.
  apply andb_true_iff in Hall as [Hc Hs].
  simpl. rewrite (digit_not_space c Hc).
  apply rstrip_digits. simpl. by rewrite Hc, Hs.
Qed.

Lemma all_chars_app (p : ascii -> bool) (a b : string) :
  Py.all_chars p (a +:+ b) = Py.all_chars p a && Py.all_chars p b.
Proof. induction a as [|c a IH]; simpl; [done|]. by rewrite IH, andb_assoc. Qed.

Lemma all_chars_zeros (n : nat) : Py.all_chars Py.ch_isdigit (Py.zeros n) = true.
Proof. induction n; simpl; [done|]. by rewrite IHn. Qed.

Lemma zfill_digits (width : nat) (s : string) :
  Py.isdigit s = true -> Py.isdigit (Py.zfill width s) = true.
Proof.
  intros H. pose proof H as [Hne Hall]%isdigit_all_chars.
  unfold Py.zfill. destruct (width <=? String.length s)%nat; [done|].
  destruct s as [|c s]; [done|].
  pose proof Hall as Hall'. simpl in Hall'. apply andb_true_iff in Hall' as [Hc _].
  rewrite (digit_not_sign c Hc).
  apply isdigit_all_chars. split.
  - destruct (width - _); simpl; done.
  - by rewrite all_chars_app, all_chars_zeros, Hall.
Qed.

Lemma zfill_length_short (width : nat) (s : string) :
  String.length s <= width -> String.length (Py.zfill width s) = width.
Proof.
  intros H. unfold Py.zfill.
  destruct (Nat.leb_spec width (String.length s)) as [H'|H']; [lia|].
  destruct s as [|c s]; simpl in *; [by rewrite zeros_length; lia|].
  destruct (_ || _); simpl; rewrite str_length_app, zeros_length; simpl; lia.
Qed.

Lemma strip_empty_not_digit (c : string) :
  Py.isdigit (Py.strip c) = true -> Py.truthy c = true.
Proof. destruct c; [discriminate | done]. Qed.

(** Membership in the normalised target set. *)
Lemma elem_of_normalize_cpv (cpv : option (list string)) (c : string) :
  c ∈ normalize_cpv cpv <->
  exists x, x ∈ cpv_or_default cpv /\ Py.isdigit (Py.strip x) = true /\
            c = Py.zfill 8 (Py.strip x).
Proof.
  unfold normalize_cpv, stripped_digits. rewrite elem_of_map. split.
  - intros (y & -> & Hy). apply elem_of_list_to_set in Hy.
    apply list_elem_of_In, in_map_iff in Hy as (x & <- & Hx).
    apply filter_In in Hx as [Hx Hd]. apply andb_true_iff in Hd as [_ Hd].
    exists x. by rewrite list_elem_of_In.
  - intros (x & Hx & Hd & ->). exists (Py.strip x). split; [done|].
    apply elem_of_list_to_set, list_elem_of_In, in_map_iff. exists x. split; [done|].
    apply filter_In. split; [by apply list_elem_of_In|].
    by rewrite (strip_empty_not_digit x Hd), Hd.
Qed.

Lemma normalize_cpv_empty (cpv : option (list string)) :
  normalize_cpv cpv = ∅ <->
  forall x, x ∈ cpv_or_default cpv -> Py.isdigit (Py.strip x) = false.
Proof.
  split.
  - intros H x Hx. destruct (Py.isdigit (Py.strip x)) eqn:E; [|done].
    assert (Hin : Py.zfill 8 (Py.strip x) ∈ normalize_cpv cpv).
    { apply elem_of_normalize_cpv. eauto. }
    rewrite H in Hin. by apply not_elem_of_empty in Hin.
  - intros H. apply set_eq. intros c. split; [|by intros ?%not_elem_of_empty].
    intros (x & Hx & Hd & _)%elem_of_normalize_cpv. by rewrite (H x Hx) in Hd.
Qed.

Lemma normalize_default_nonempty (cpv : option (list string)) :
  cpv = None \/ cpv = Some [] -> normalize_cpv cpv = list_to_set DEFAULT_CPV.
Proof. intros [->| ->]; vm_compute; reflexivity. Qed.

(** C7, as the code has it. Every code of the normalised target set comes
    from a candidate of the list in force, is that candidate stripped and
    left-padded with zeros, consists of digits only and has at least 8
    characters, exactly 8 when the stripped candidate has at most 8. *)
Theorem C7_targets_are_padded_digit_strings (cpv : option (list string)) (c : string) :
  c ∈ normalize_cpv cpv ->
  Py.isdigit c = true /\
  8 <= String.length c /\
  exists x, x ∈ cpv_or_default cpv /\ c = Py.zfill 8 (Py.strip x) /\
            (String.length (Py.strip x) <= 8 -> String.length c = 8).
Proof.
  intros (x & Hx & Hd & ->)%elem_of_normalize_cpv.
  split; [by apply zfill_digits|]. split; [apply zfill_length|].
  exists x. split; [done|]. split; [done|]. apply zfill_length_short.
Qed.

Lemma C7_witness :
  "00000123" ∈ normalize_cpv (Some ["abc"; "123"]) /\
  Py.isdigit "00000123" = true /\ 8 <= String.length "00000123".
Proof.
  assert (H : "00000123" ∈ normalize_cpv (Some ["abc"; "123"])).
  { apply elem_of_normalize_cpv. exists "123".
    split; [apply list_elem_of_In; simpl; auto|]. split; reflexivity. }
  split; [exact H|].
  destruct (C7_targets_are_padded_digit_strings (Some ["abc"; "123"]) "00000123" H)
    as (Hd & Hl & _).
  split; [exact Hd | exact Hl].
Defined.

(** C7, as the specification words it, fails: a candidate of nine digits
    stays nine characters long. *)
Lemma C7_counterexample :
  ~ (forall (cpv : list string) (c : string),
       c ∈ normalize_cpv (Some cpv) ->
       String.length c = 8 /\ Py.isdigit c = true).
Proof.
  intros H. destruct (H ["123456789"] "123456789") as [Hlen _].
  - apply elem_of_normalize_cpv. exists "123456789".
    split; [apply list_elem_of_In; simpl; auto|]. split; reflexivity.
  - discriminate Hlen.
Qed.

(** C9. Normalising the members of a normalised, non-empty target set, in
    whatever order and multiplicity they are listed, gives the same set. *)
Theorem C9_normalize_idempotent (cpv : option (list string)) (l : list string) :
  normalize_cpv cpv <> ∅ ->
  list_to_set l = normalize_cpv cpv ->
  normalize_cpv (Some l) = normalize_cpv cpv.
Proof.
  intros Hne Hl.
  assert (Hfix : forall x, x ∈ normalize_cpv cpv ->
            Py.isdigit (Py.strip x) = true /\ Py.zfill 8 (Py.strip x) = x).
  { intros x (y & Hy & Hd & ->)%elem_of_normalize_cpv.
    pose proof (zfill_digits 8 _ Hd) as Hz.
    rewrite (strip_digits _ Hz). split; [done|].
    apply zfill_long, zfill_length. }
  assert (Hdef : cpv_or_default (Some l) = l).
  { destruct l as [|x l]; [|done]. by destruct Hne. }
  apply set_eq. intros c. rewrite elem_of_normalize_cpv, Hdef. split.
  - intros (x & Hx & _ & ->).
    assert (Hin : x ∈ normalize_cpv cpv) by (rewrite <- Hl; by apply elem_of_list_to_set).
    destruct (Hfix x Hin) as [_ ->]. done.
  - intros Hc. destruct (Hfix c Hc) as [Hd Hz].
    exists c. split; [|done].
    apply (elem_of_list_to_set (C := gset string)). by rewrite Hl.
Qed.

Lemma C9_witness :
  normalize_cpv (Some ["abc"; " 123 "; "45261215"; "123"]) = {["00000123"; "45261215"]} /\
  normalize_cpv (Some ["45261215"; "00000123"; "45261215"]) =
  normalize_cpv (Some ["abc"; " 123 "; "45261215"; "123"]).
Proof.
  split; [vm_compute; reflexivity|].
  apply (C9_normalize_idempotent (Some ["abc"; " 123 "; "45261215"; "123"])
           ["45261215"; "00000123"; "45261215"]).
  - vm_compute. discriminate.
  - vm_compute. reflexivity.
Defined.

(** ** The run *)

Lemma http_get_attempts_head (env : Env) (url : string) (retries i k : nat) :
  exists tr r, http_get_attempts env url retries i (S k) = (EvGet url i :: tr, r).
Proof.
  simpl. destruct (requests_get env url i) as [content|e]; [by eauto|].
  destruct (http_get_attempts env url retries (S i) k) as [tr r]. eauto.
Qed.

Lemma run_placsp_downloads (env : Env) (date_iso : option string)
    (cpv : option (list string)) (out_path : option string) (verbose : bool)
    (target : date) :
  resolve_target_date env date_iso = Ok target ->
  normalize_cpv cpv <> ∅ ->
  EvGet (month_zip_url env target) 0 ∈ fst (run_placsp env date_iso cpv out_path verbose).
Proof.
  intros Hres Hne. unfold run_placsp. rewrite Hres.
  rewrite bool_decide_eq_false_2 by done.
  unfold http_get_bytes.
  destruct (http_get_attempts_head env (month_zip_url env target) 3 0 2) as (tr & r & ->).
  destruct r as [zip_bytes|e]; simpl.
  - destruct (process_zip_bytes _ _ _ _); simpl;
      rewrite elem_of_app; right; by left.
  - rewrite elem_of_app. right. by left.
Qed.

(** C4, as the code has it. With the target date resolved, the run ends
    with the validation error and an empty trace exactly when the normalised
    target set is empty, that is when no candidate of the list in force (the
    caller's list, or the built-in list when the caller's is empty or
    omitted) is all digits once stripped; otherwise the download is
    attempted.  For the candidates abc and 123 the set is {00000123}. *)
Theorem C4_validation_error_before_io (env : Env) (date_iso : option string)
    (cpv : option (list string)) (out_path : option string) (verbose : bool)
    (target : date) :
  resolve_target_date env date_iso = Ok target ->
  (run_placsp env date_iso cpv out_path verbose = ([], Raise ValueError_sin_cpv) <->
   normalize_cpv cpv = ∅) /\
  (normalize_cpv cpv = ∅ <->
   forall x, x ∈ cpv_or_default cpv -> Py.isdigit (Py.strip x) = false) /\
  (normalize_cpv cpv <> ∅ ->
   EvGet (month_zip_url env target) 0 ∈ fst (run_placsp env date_iso cpv out_path verbose)) /\
  normalize_cpv (Some ["abc"; "123"]) = {["00000123"]}.
Proof.
  intros Hres. split; [|split; [apply normalize_cpv_empty|split]].
  - split.
    + intros Hrun. destruct (decide (normalize_cpv cpv = ∅)) as [|Hne]; [done|].
      pose proof (run_placsp_downloads env date_iso cpv out_path verbose target Hres Hne) as Hin.
      rewrite Hrun in Hin. by apply elem_of_nil in Hin.
    + intros Hempty. unfold run_placsp. rewrite Hres.
      by rewrite bool_decide_eq_true_2.
  - by apply run_placsp_downloads.
  - vm_compute. reflexivity.
Qed.

Lemma C4_witness :
  resolve_target_date sample_env (Some "2024-03-05") =
    Ok {| year := 2024; month := 3; day := 5 |} /\
  run_placsp sample_env (Some "2024-03-05") (Some ["abc"; "x1"]) None false =
    ([], Raise ValueError_sin_cpv) /\
  EvGet (month_zip_url sample_env {| year := 2024; month := 3; day := 5 |}) 0
    ∈ fst (run_placsp sample_env (Some "2024-03-05") (Some ["abc"; "123"]) None false).
Proof.
  split; [reflexivity|]. split.
  - apply (C4_validation_error_before_io sample_env (Some "2024-03-05")
             (Some ["abc"; "x1"]) None false {| year := 2024; month := 3; day := 5 |});
      [reflexivity | vm_compute; reflexivity].
  - apply (C4_validation_error_before_io sample_env (Some "2024-03-05")
             (Some ["abc"; "123"]) None false {| year := 2024; month := 3; day := 5 |});
      [reflexivity | vm_compute; discriminate].
Defined.

(** C4, as the specification words it, fails: for the empty list the set of
    its padded numeric candidates is empty, and the run takes the built-in
    list and goes on to download. *)
Lemma C4_counterexample :
  ~ (forall (env : Env) (date_iso : option string) (cpv : list string)
            (out_path : option string) (verbose : bool) (target : date),
       resolve_target_date env date_iso = Ok target ->
       (run_placsp env date_iso (Some cpv) out_path verbose = ([], Raise ValueError_sin_cpv) <->
        spec_normalize cpv = ∅)).
Proof.
  intros H.
  destruct (H sample_env None [] None false {| year := 2024; month := 3; day := 5 |} eq_refl)
    as [_ Hraise].
  specialize (Hraise eq_refl). vm_compute in Hraise. discriminate Hraise.
Qed.

Example run_with_default_codes :
  run_placsp sample_env (Some "2024-03-05") (Some []) None false =
  ([EvGet "https://contrataciondelestado.es/sindicacion/sindicacion_643/licitacionesPerfilesContratanteCompleto3_202403.zip" 0;
    EvWriteCsv "/tmp/placsp_2024-03-05_cpv.csv" []],
   Ok ([], "/tmp/placsp_2024-03-05_cpv.csv", 0)).
Proof. vm_compute. reflexivity. Qed.

(** ** What the one-character timestamp means for a run *)

Lemma date_test_rejects (iso_date : string) (entry : Node) :
  updated_timestamp entry = "" \/ String.prefix iso_date (updated_timestamp entry) = false ->
  date_test iso_date entry = false.
Proof.
  intros H. destruct (date_test iso_date entry) eqn:E; [|done].
  apply date_test_sound in E as [Hne Hp]. destruct H as [H|H]; congruence.
Qed.

Lemma selected_at_a_date (d : date) (cpv_targets : gset string) (entry : Node) :
  selected (isoformat d) cpv_targets entry = false.
Proof.
  unfold selected. rewrite date_test_two_chars; [done|].
  pose proof (isoformat_length d). lia.
Qed.

(** At a calendar date no entry is selected, so a run that returns has
    found nothing. *)
Lemma process_zip_bytes_at_a_date (env : Env) (zip_bytes : bytes) (d : date)
    (cpv_targets : gset string) (found : list TenderRecord) :
  process_zip_bytes env zip_bytes (isoformat d) cpv_targets = Ok found -> found = [].
Proof.
  intros (zf & _ & ->)%process_zip_bytes_Ok.
  induction (parsed_entries env zf) as [|e es IH]; simpl; [done|].
  by rewrite selected_at_a_date.
Qed.

(** The white space around a candidate is stripped before the digit test,
    so a candidate that is not purely numeric can survive. *)
Example normalize_strips :
  spec_normalize [" 123 "] = ∅ /\ normalize_cpv (Some [" 123 "]) = {["00000123"]}.
Proof. split; vm_compute; reflexivity. Qed.

(** * Further properties of the module *)

(** ** The download loop *)

Lemma http_get_attempts_success (env : Env) (url : string) (retries : nat)
    (content : bytes) (j : nat) :
  forall i k,
    (forall m, i <= m < i + j -> exists e, requests_get env url m = Raise e) ->
    requests_get env url (i + j) = Ok content ->
    j < k ->
    http_get_attempts env url retries i k =
      ((failed_attempts url retries i j ++ [EvGet url (i + j)])%list, Ok content).
Proof.
  induction j as [|j IH]; intros i k Hfail Hok Hlt.
  - destruct k as [|k]; [lia|]. simpl. rewrite Nat.add_0_r in Hok. rewrite Hok.
    unfold failed_attempts. simpl. by rewrite Nat.add_0_r.
  - destruct k as [|k]; [lia|]. simpl.
    destruct (Hfail i ltac:(lia)) as [e ->].
    rewrite (IH (S i) k).
    + unfold failed_attempts. simpl. by rewrite <- app_assoc, Nat.add_succ_r.
    + intros m Hm. apply Hfail. lia.
    + by replace (S i + j) with (i + S j) by lia.
    + lia.
Qed.

Lemma http_get_attempts_all_fail (env : Env) (url : string) (retries : nat) (k : nat) :
  forall i,
    (forall m, i <= m < i + k -> exists e, requests_get env url m = Raise e) ->
    http_get_attempts env url retries i k =
      (failed_attempts url retries i k, Raise RuntimeError_descarga).
Proof.
  induction k as [|k IH]; intros i Hfail; [done|].
  simpl. destruct (Hfail i ltac:(lia)) as [e ->].
  rewrite (IH (S i)); [done|]. intros m Hm. apply Hfail. lia.
Qed.

Lemma http_get_attempts_raise (env : Env) (url : string) (retries : nat) (k : nat) :
  forall i e,
    snd (http_get_attempts env url retries i k) = Raise e ->
    e = RuntimeError_descarga /\
    forall m, i <= m < i + k -> exists e', requests_get env url m = Raise e'.
Proof.
  induction k as [|k IH]; intros i e; simpl.
  - intros [= <-]. split; [done|]. intros m Hm. lia.
  - destruct (requests_get env url i) as [content|e'] eqn:E; [discriminate|].
    destruct (http_get_attempts env url retries (S i) k) as [tr r] eqn:Erec. simpl.
    intros Hr. destruct (IH (S i) e) as [He Hall]; [by rewrite Erec|].
    split; [done|]. intros m Hm.
    destruct (decide (m = i)) as [->|Hne]; [eauto|]. apply Hall. lia.
Qed.

Lemma flat_map_agree {A B : Type} (f g : A -> list B) (l : list A) :
  (forall x, In x l -> f x = g x) -> flat_map f l = flat_map g l.
Proof.
  induction l as [|x l IH]; intros H; simpl; [done|].
  rewrite (H x) by (by left). rewrite IH; [done|]. intros y Hy. apply H. by right.
Qed.

(** X1. When the attempts before the [j]-th fail and the [j]-th succeeds,
    within the bound, the download returns the content of that attempt after
    [j+1] requests, with a sleep after each failed one. *)
Theorem http_get_bytes_first_success (env : Env) (url : string) (retries j : nat)
    (content : bytes) :
  j < retries ->
  (forall m, m < j -> exists e, requests_get env url m = Raise e) ->
  requests_get env url j = Ok content ->
  http_get_bytes_retries env url retries =
    ((flat_map (fun m => [EvGet url m; EvSleep m]) (seq 0 j) ++ [EvGet url j])%list,
     Ok content).
Proof.
  intros Hlt Hfail Hok. unfold http_get_bytes_retries.
  rewrite (http_get_attempts_success env url retries content j 0 retries); [|  | done | done].
  - f_equal. f_equal. unfold failed_attempts.
    apply flat_map_agree. intros m Hm%in_seq.
    by rewrite (proj2 (Nat.ltb_lt m (retries - 1))) by lia.
  - intros m Hm. apply Hfail. lia.
Qed.

Lemma http_get_bytes_first_success_witness :
  http_get_bytes_retries flaky_env "u" 3 =
    ([EvGet "u" 0; EvSleep 0; EvGet "u" 1; EvSleep 1; EvGet "u" 2], Ok sample_zip).
Proof.
  apply (http_get_bytes_first_success flaky_env "u" 3 2 sample_zip).
  - lia.
  - intros m Hm. exists RequestError. simpl.
    by rewrite (proj2 (Nat.ltb_lt m 2)) by lia.
  - reflexivity.
Defined.

(** X2. The download raises exactly when every attempt within the bound
    fails, and then what it raises is the RuntimeError of the module,
    whatever the requests raised. *)
Theorem http_get_bytes_raises_iff (env : Env) (url : string) (retries : nat) (e : exn) :
  snd (http_get_bytes_retries env url retries) = Raise e <->
  e = RuntimeError_descarga /\
  forall m, m < retries -> exists e', requests_get env url m = Raise e'.
Proof.
  unfold http_get_bytes_retries. split.
  - intros H. apply http_get_attempts_raise in H as [He Hall].
    split; [done|]. intros m Hm. apply Hall. lia.
  - intros [-> Hall]. rewrite http_get_attempts_all_fail; [done|].
    intros m Hm. apply Hall. lia.
Qed.

Lemma http_get_attempts_counts (env : Env) (url : string) (retries : nat) (k : nat) :
  forall i, i + k = retries -> 0 < k ->
    let tr := fst (http_get_attempts env url retries i k) in
    0 < length (List.filter is_get tr) <= k /\
    length (List.filter is_sleep tr) = length (List.filter is_get tr) - 1.
Proof.
  induction k as [|k IH]; intros i Hik Hk; [lia|]. simpl.
  destruct (requests_get env url i) as [content|e]; [simpl; lia|].
  destruct (http_get_attempts env url retries (S i) k) as [tr r] eqn:Erec. simpl.
  destruct k as [|k].
  - simpl in Erec. injection Erec as <- <-.
    rewrite (proj2 (Nat.ltb_ge i (retries - 1))) by lia. simpl. lia.
  - specialize (IH (S i) ltac:(lia) ltac:(lia)). rewrite Erec in IH. simpl in IH.
    rewrite (proj2 (Nat.ltb_lt i (retries - 1))) by lia. simpl. lia.
Qed.

(** X3. Whatever the requests answer, a download with a positive bound
    makes at least one and at most [retries] requests, and sleeps once less
    than it requests: never after its last attempt. *)
Theorem http_get_bytes_bounds (env : Env) (url : string) (retries : nat) :
  0 < retries ->
  let tr := fst (http_get_bytes_retries env url retries) in
  0 < length (List.filter is_get tr) <= retries /\
  length (List.filter is_sleep tr) = length (List.filter is_get tr) - 1.
Proof.
  intros H. unfold http_get_bytes_retries.
  by apply (http_get_attempts_counts env url retries retries 0).
Qed.

Lemma http_get_bytes_bounds_witness :
  0 < 3 /\
  (let tr := fst (http_get_bytes_retries offline_env "u" 3) in
   0 < length (List.filter is_get tr) <= 3 /\
   length (List.filter is_sleep tr) = length (List.filter is_get tr) - 1).
Proof.
  split; [lia|]. apply (http_get_bytes_bounds offline_env "u" 3). lia.
Defined.

Lemma http_get_bytes_default (env : Env) (url : string) :
  http_get_bytes env url = http_get_bytes_retries env url 3.
Proof. reflexivity. Qed.

(** ** The run as a whole *)

(** X5. A run that returns has found nothing: the target date is printed
    by [isoformat], ten characters long, and the date test passes one. *)
Theorem run_placsp_returns_no_rows (env : Env) (date_iso : option string)
    (cpv : option (list string)) (out_path : option string) (verbose : bool)
    (rows : list TenderRecord) (path : string) (n : nat) :
  snd (run_placsp env date_iso cpv out_path verbose) = Ok (rows, path, n) ->
  rows = [] /\ n = 0.
Proof.
  unfold run_placsp.
  destruct (resolve_target_date env date_iso) as [target|e]; [|discriminate].
  case_bool_decide; [discriminate|].
  destruct (http_get_bytes env (month_zip_url env target)) as [tr2 got].
  destruct got as [zip_bytes|e]; [|discriminate].
  destruct (process_zip_bytes _ _ _ _) as [found|e] eqn:E; [|discriminate].
  simpl. intros [= <- _ <-].
  apply process_zip_bytes_at_a_date in E as ->. done.
Qed.

Lemma run_placsp_returns_no_rows_witness :
  snd (run_placsp sample_env (Some "2024-03-05") (Some ["45261215"]) None true) =
    Ok ([], "/tmp/placsp_2024-03-05_cpv.csv", 0) /\
  ([] : list TenderRecord) = [] /\ 0 = 0.
Proof.
  split; [vm_compute; reflexivity|].
  apply (run_placsp_returns_no_rows sample_env (Some "2024-03-05") (Some ["45261215"])
           None true [] "/tmp/placsp_2024-03-05_cpv.csv" 0).
  vm_compute; reflexivity.
Defined.

(** X7. With the date resolved and a non-empty target set, a download whose
    three attempts fail ends the run with the download error after three
    requests and two sleeps; nothing is parsed or written. *)
Theorem run_placsp_download_fails (env : Env) (date_iso : option string)
    (cpv : option (list string)) (out_path : option string) (verbose : bool)
    (target : date) :
  resolve_target_date env date_iso = Ok target ->
  normalize_cpv cpv <> ∅ ->
  (forall m, m < 3 -> exists e, requests_get env (month_zip_url env target) m = Raise e) ->
  run_placsp env date_iso cpv out_path verbose =
    (let url := month_zip_url env target in
     ((if verbose then [EvPrint 1; EvPrint 2; EvPrint 3] else []) ++
      [EvGet url 0; EvSleep 0; EvGet url 1; EvSleep 1; EvGet url 2])%list,
     Raise RuntimeError_descarga).
Proof.
  intros Hres Hne Hfail. unfold run_placsp. rewrite Hres.
  rewrite bool_decide_eq_false_2 by done.
  unfold http_get_bytes. rewrite http_get_attempts_all_fail; [done|].
  intros m Hm. apply Hfail. lia.
Qed.

Lemma run_placsp_download_fails_witness :
  run_placsp offline_env None None None false =
    ([EvGet (month_zip_url offline_env {| year := 2024; month := 3; day := 5 |}) 0; EvSleep 0;
      EvGet (month_zip_url offline_env {| year := 2024; month := 3; day := 5 |}) 1; EvSleep 1;
      EvGet (month_zip_url offline_env {| year := 2024; month := 3; day := 5 |}) 2],
     Raise RuntimeError_descarga).
Proof.
  apply (run_placsp_download_fails offline_env None None None false
           {| year := 2024; month := 3; day := 5 |}).
  - reflexivity.
  - vm_compute. discriminate.
  - intros m _. exists RequestError. reflexivity.
Defined.

(** ** Target codes, continued *)

Lemma cpv_or_default_cons (l : list string) :
  l <> [] -> cpv_or_default (Some l) = l.
Proof. by destruct l. Qed.

(** X8. The target set depends on which candidates are listed, not on their
    order or on how often each is listed. *)
Theorem normalize_cpv_same_members (l l' : list string) :
  (forall x, x ∈ l <-> x ∈ l') ->
  normalize_cpv (Some l) = normalize_cpv (Some l').
Proof.
  intros Hsame.
  assert (Hdef : forall x, x ∈ cpv_or_default (Some l) <-> x ∈ cpv_or_default (Some l')).
  { destruct l as [|a l], l' as [|b l']; simpl; try done.
    - exfalso. apply (not_elem_of_nil b), Hsame. by left.
    - exfalso. apply (not_elem_of_nil a), Hsame. by left. }
  apply set_eq. intros c. rewrite !elem_of_normalize_cpv.
  split; intros (x & Hx & Hd & ->); exists x; (split; [by apply Hdef | done]).
Qed.

Lemma normalize_cpv_same_members_witness :
  (forall x, x ∈ ["123"; "45261215"; "123"] <-> x ∈ ["45261215"; "123"]) /\
  normalize_cpv (Some ["123"; "45261215"; "123"]) = normalize_cpv (Some ["45261215"; "123"]).
Proof.
  assert (H : forall x : string, x ∈ ["123"; "45261215"; "123"] <-> x ∈ ["45261215"; "123"]).
  { intros x. rewrite !elem_of_cons. pose proof (not_elem_of_nil x). tauto. }
  split; [exact H|]. apply (normalize_cpv_same_members _ _ H).
Defined.

(** X9. Listing the candidates of two non-empty lists one after the other
    gives the union of their target sets. *)
Theorem normalize_cpv_app (l1 l2 : list string) :
  l1 <> [] -> l2 <> [] ->
  normalize_cpv (Some (l1 ++ l2)%list) = normalize_cpv (Some l1) ∪ normalize_cpv (Some l2).
Proof.
  intros H1 H2. apply set_eq. intros c.
  rewrite elem_of_union, !elem_of_normalize_cpv.
  rewrite !cpv_or_default_cons by (try done; by destruct l1).
  split.
  - intros (x & Hx & Hd & ->). apply elem_of_app in Hx as [Hx|Hx]; [left|right]; eauto.
  - intros [(x & Hx & Hd & ->)|(x & Hx & Hd & ->)]; exists x;
      (split; [apply elem_of_app; auto | done]).
Qed.

Lemma normalize_cpv_app_witness :
  ["abc"; "123"] <> [] /\ [" 45261215"] <> [] /\
  normalize_cpv (Some ["abc"; "123"; " 45261215"]) =
  normalize_cpv (Some ["abc"; "123"]) ∪ normalize_cpv (Some [" 45261215"]).
Proof.
  split; [discriminate|]. split; [discriminate|].
  apply (normalize_cpv_app ["abc"; "123"] [" 45261215"]); discriminate.
Defined.

(** ** The archive loop, continued *)

Lemma scan_members_collect (env : Env) (zf : ZipArchive) (iso_date : string)
    (cpv_targets : gset string) (names : list string) (found : list TenderRecord) :
  scan_members env zf iso_date cpv_targets names found =
  (es ← collect_entries env zf names;
   Ok (found ++ map record_of (List.filter (selected iso_date cpv_targets) es))%list).
Proof.
  revert found. induction names as [|name rest IH]; intros found; simpl.
  - by rewrite app_nil_r.
  - unfold is_feed_name.
    destruct (Py.endswith (Py.lower name) ".atom"); simpl; [|apply IH].
    destruct (read zf name) as [atom|e].
    + destruct (iter_entries env atom) as [es|e]; simpl; [|done].
      rewrite scan_entries_eq. simpl. rewrite IH.
      destruct (collect_entries env zf rest) as [more|e]; simpl; [|done].
      by rewrite List.filter_app, map_app, app_assoc.
    + destruct e; first [done | apply IH].
Qed.

(** X10. The loop over the archive amounts to three steps in a row: parse
    every member with the feed suffix that can be read, keep the entries
    that pass the date test and the code test, extract the fields of each. *)
Theorem process_zip_bytes_parse_then_select (env : Env) (zip_bytes : bytes)
    (iso_date : string) (cpv_targets : gset string) :
  process_zip_bytes env zip_bytes iso_date cpv_targets =
  (zf ← ZipFile env zip_bytes;
   es ← collect_entries env zf (namelist zf);
   Ok (map record_of (List.filter (selected iso_date cpv_targets) es))).
Proof.
  unfold process_zip_bytes. destruct (ZipFile env zip_bytes) as [zf|e]; simpl; [|done].
  apply scan_members_collect.
Qed.

(** X11. Whether processing an archive fails, and with which exception,
    does not depend on the target date or on the target codes. *)
Theorem process_zip_bytes_failure_independent (env : Env) (zip_bytes : bytes)
    (iso_date iso_date' : string) (cpv_targets cpv_targets' : gset string) (e : exn) :
  process_zip_bytes env zip_bytes iso_date cpv_targets = Raise e ->
  process_zip_bytes env zip_bytes iso_date' cpv_targets' = Raise e.
Proof.
  unfold process_zip_bytes. destruct (ZipFile env zip_bytes) as [zf|e0]; simpl; [|done].
  rewrite !scan_members_collect.
  by destruct (collect_entries env zf (namelist zf)).
Qed.

Lemma process_zip_bytes_failure_independent_witness :
  process_zip_bytes sample_env broken_zip "2" {["45261215"]} = Raise AttributeError /\
  process_zip_bytes sample_env broken_zip "2024-03-06" ∅ = Raise AttributeError.
Proof.
  split; [vm_compute; reflexivity|].
  apply (process_zip_bytes_failure_independent sample_env broken_zip "2" "2024-03-06"
           {["45261215"]} ∅ AttributeError).
  vm_compute; reflexivity.
Defined.

Lemma filter_weaken_sublist {A : Type} (f g : A -> bool) (l : list A) :
  (forall x, f x = true -> g x = true) ->
  List.filter f l `sublist_of` List.filter g l.
Proof.
  intros Hfg. induction l as [|x l IH]; simpl; [constructor|].
  destruct (f x) eqn:Ef.
  - rewrite (Hfg x Ef). by constructor.
  - destruct (g x); [by constructor | done].
Qed.

Lemma map_sublist {A B : Type} (f : A -> B) (l1 l2 : list A) :
  l1 `sublist_of` l2 -> map f l1 `sublist_of` map f l2.
Proof. induction 1; simpl; by constructor. Qed.

Lemma selected_mono (iso_date : string) (t t' : gset string) (entry : Node) :
  t ⊆ t' -> selected iso_date t entry = true -> selected iso_date t' entry = true.
Proof.
  intros Hsub. unfold selected. rewrite !andb_true_iff. intros [Hd Hc].
  split; [done|]. apply code_test_spec in Hc as (c & Hc & Ht).
  apply code_test_spec. exists c. split; [done|]. by apply Hsub.
Qed.

(** X12. Adding codes to the target set loses no record: when the run
    over an archive returns for a target set, it returns for every larger
    one, and the records of the smaller set are among those of the larger,
    in the same order. *)
Theorem process_zip_bytes_monotone (env : Env) (zip_bytes : bytes) (iso_date : string)
    (t t' : gset string) (found : list TenderRecord) :
  t ⊆ t' ->
  process_zip_bytes env zip_bytes iso_date t = Ok found ->
  exists found', process_zip_bytes env zip_bytes iso_date t' = Ok found' /\
                 found `sublist_of` found'.
Proof.
  intros Hsub. unfold process_zip_bytes.
  destruct (ZipFile env zip_bytes) as [zf|e0]; simpl; [|done].
  rewrite !scan_members_collect.
  destruct (collect_entries env zf (namelist zf)) as [es|e]; simpl; [|done].
  intros [= <-]. eexists. split; [done|].
  apply map_sublist, filter_weaken_sublist. intros x. by apply selected_mono.
Qed.

Lemma process_zip_bytes_monotone_witness :
  ({["45261215"]} : gset string) ⊆ {["45261215"; "09330000"]} /\
  process_zip_bytes sample_env sample_zip "2" {["45261215"]} = Ok [record_of sample_entry] /\
  exists found',
    process_zip_bytes sample_env sample_zip "2" {["45261215"; "09330000"]} = Ok found' /\
    [record_of sample_entry] `sublist_of` found'.
Proof.
  assert (Hsub : ({["45261215"]} : gset string) ⊆ {["45261215"; "09330000"]}).
  { intros x Hx. apply elem_of_union. by left. }
  split; [exact Hsub|]. split; [vm_compute; reflexivity|].
  apply (process_zip_bytes_monotone sample_env sample_zip "2" {["45261215"]}
           {["45261215"; "09330000"]} [record_of sample_entry] Hsub).
  vm_compute; reflexivity.
Defined.

Example larger_target_set :
  process_zip_bytes sample_env sample_zip "2" {["45261215"; "09330000"]} =
  Ok [record_of sample_entry].
Proof. vm_compute. reflexivity. Qed.

(** ** The entry predicates, continued *)

Lemma prefix_one_char (p : string) (c : ascii) :
  String.prefix p (String c EmptyString) = true <-> p = "" \/ p = String c EmptyString.
Proof.
  destruct p as [|a p]; simpl; [by split; [left|]|].
  destruct (ascii_dec a c) as [->|Hne].
  - destruct p; simpl; split; try done; [by right | intros [?|?]; done].
  - split; [done|]. intros [?|[= ? ?]]; done.
Qed.

(** X14. The date test answers True exactly when the entry has a non-empty
    "updated" string and the date given is the empty string or the first
    character of that string, alone. *)
Theorem entry_is_for_date_true_iff (entry : Node) (iso_date : string) :
  entry_is_for_date entry iso_date = Ok true <->
  updated_timestamp entry <> "" /\
  (iso_date = "" \/ iso_date = first_char (updated_timestamp entry)).
Proof.
  rewrite entry_is_for_date_total.
  split.
  - intros [= H]. apply date_test_spec in H as [Hne Hp]. split; [done|].
    destruct (updated_timestamp entry) as [|c u]; [done|]. by apply prefix_one_char.
  - intros [Hne H]. f_equal. apply date_test_spec. split; [done|].
    destruct (updated_timestamp entry) as [|c u]; [done|]. by apply prefix_one_char.
Qed.

(** ** Field extraction, continued *)

Lemma text1_value_string_length (entry : Node) (xpath_expr : expr) :
  (forall l, eval entry xpath_expr <> XTexts l) ->
  (forall l, eval entry xpath_expr <> XElems l) ->
  String.length (text1_value entry xpath_expr) <= 1.
Proof.
  intros Ht He. unfold text1_value.
  destruct (eval entry xpath_expr) as [s|l|l].
  - apply first_char_length.
  - by destruct (Ht l).
  - by destruct (He l).
Qed.

(** X15. Every field of an extracted record but [cpv] is at most one
    character long: the first character of the string its query yields. *)
Theorem extract_fields_one_character (entry : Node) (r : TenderRecord) :
  extract_fields entry = Ok r ->
  Forall (fun s => String.length s <= 1)
         [expediente r; objeto r; organo r; estado r; importe r; fecha_updated r; enlace r] /\
  objeto r = first_char (string_of_first string_value (child_elements "title" entry)) /\
  fecha_updated r = first_char (updated_timestamp entry) /\
  enlace r = first_char (string_of_first id (child_attributes "link" "href" entry)).
Proof.
  rewrite extract_fields_total. intros [= <-]. split; [|done].
  repeat (apply Forall_cons_2;
          [simpl; apply text1_value_string_length; intros l; discriminate|]).
  apply Forall_nil_2.
Qed.

Lemma extract_fields_one_character_witness :
  extract_fields sample_entry = Ok (record_of sample_entry) /\
  objeto (record_of sample_entry) = "O" /\
  enlace (record_of sample_entry) = "h".
Proof.
  split; [apply extract_fields_total|].
  destruct (extract_fields_one_character sample_entry (record_of sample_entry))
    as (_ & Ho & _ & He); [apply extract_fields_total|].
  split; [rewrite Ho | rewrite He]; reflexivity.
Defined.

(** ** Namespaces *)

Lemma named_relabel (f : QName -> string) (nm : string) (n : Node) :
  named nm (relabel f n) = named nm n.
Proof. by destruct n. Qed.

Lemma filter_map_commute {A B : Type} (g : A -> B) (p : B -> bool) (q : A -> bool)
    (l : list A) :
  (forall x, p (g x) = q x) ->
  List.filter p (map g l) = map g (List.filter q l).
Proof.
  intros H. induction l as [|x l IH]; simpl; [done|].
  rewrite H. destruct (q x); simpl; by rewrite IH.
Qed.

Lemma flat_map_map {A B C : Type} (g : A -> B) (h : B -> list C) (l : list A) :
  flat_map h (map g l) = flat_map (fun x => h (g x)) l.
Proof. induction l as [|x l IH]; simpl; [done | by rewrite IH]. Qed.

Lemma map_flat_map {A B C : Type} (g : B -> C) (h : A -> list B) (l : list A) :
  map g (flat_map h l) = flat_map (fun x => map g (h x)) l.
Proof. induction l as [|x l IH]; simpl; [done | by rewrite map_app, IH]. Qed.

Lemma flat_map_agree_Forall {A B : Type} (f g : A -> list B) (l : list A) :
  Forall (fun x => f x = g x) l -> flat_map f l = flat_map g l.
Proof. induction 1 as [|x l Hx _ IH]; simpl; [done | by rewrite Hx, IH]. Qed.

Lemma map_agree_Forall {A B : Type} (f g : A -> B) (l : list A) :
  Forall (fun x => f x = g x) l -> map f l = map g l.
Proof. induction 1 as [|x l Hx _ IH]; simpl; [done | by rewrite Hx, IH]. Qed.

Lemma string_value_relabel (f : QName -> string) (n : Node) :
  string_value (relabel f n) = string_value n.
Proof.
  induction n as [t a kids IH|s|s|t d] using Node_tree_ind; simpl; try done.
  f_equal. rewrite map_map. by apply map_agree_Forall.
Qed.

Lemma descendants_relabel (f : QName -> string) (n : Node) :
  descendants (relabel f n) = map (relabel f) (descendants n).
Proof.
  induction n as [t a kids IH|s|s|t d] using Node_tree_ind; simpl; try done.
  rewrite flat_map_map, map_flat_map. apply flat_map_agree_Forall.
  eapply Forall_impl; [exact IH|]. intros k Hk. simpl. by rewrite Hk.
Qed.

Lemma text_nodes_relabel (f : QName -> string) (nm : string) (n : Node) :
  forall under, text_nodes nm under (relabel f n) = text_nodes nm under n.
Proof.
  induction n as [t a kids IH|s|s|t d] using Node_tree_ind; intros under; simpl; try done.
  rewrite flat_map_map. apply flat_map_agree_Forall.
  eapply Forall_impl; [exact IH|]. intros k Hk. apply Hk.
Qed.

Lemma children_relabel (f : QName -> string) (n : Node) :
  children (relabel f n) = map (relabel f) (children n).
Proof. by destruct n. Qed.

Lemma child_elements_relabel (f : QName -> string) (nm : string) (n : Node) :
  child_elements nm (relabel f n) = map (relabel f) (child_elements nm n).
Proof.
  unfold child_elements. rewrite children_relabel.
  apply filter_map_commute. intros x. apply named_relabel.
Qed.

Lemma descendant_elements_relabel (f : QName -> string) (nm : string) (n : Node) :
  descendant_elements nm (relabel f n) = map (relabel f) (descendant_elements nm n).
Proof.
  unfold descendant_elements. rewrite descendants_relabel.
  apply filter_map_commute. intros x. apply named_relabel.
Qed.

Lemma string_of_first_relabel (f : QName -> string) (l : list Node) :
  string_of_first string_value (map (relabel f) l) = string_of_first string_value l.
Proof. destruct l; simpl; [done | apply string_value_relabel]. Qed.

Lemma attribute_relabel (f : QName -> string) (attr : string) (n : Node) :
  attribute attr (relabel f n) = attribute attr n.
Proof. by destruct n. Qed.

Lemma child_attributes_relabel (f : QName -> string) (nm attr : string) (n : Node) :
  child_attributes nm attr (relabel f n) = child_attributes nm attr n.
Proof.
  unfold child_attributes. rewrite child_elements_relabel.
  induction (child_elements nm n) as [|k l IH]; [done|].
  change (map (relabel f) (k :: l)) with (relabel f k :: map (relabel f) l).
  change (omap (attribute attr) (relabel f k :: map (relabel f) l))
    with (match attribute attr (relabel f k) with
          | Some y => y :: omap (attribute attr) (map (relabel f) l)
          | None => omap (attribute attr) (map (relabel f) l)
          end).
  rewrite attribute_relabel, IH. reflexivity.
Qed.

Lemma descendant_text_relabel (f : QName -> string) (nm : string) (n : Node) :
  descendant_text nm (relabel f n) = descendant_text nm n.
Proof.
  unfold descendant_text. rewrite children_relabel, flat_map_map.
  apply flat_map_agree_Forall, Forall_forall. intros k _. apply text_nodes_relabel.
Qed.

Lemma text1_value_relabel (f : QName -> string) (entry : Node) (xpath_expr : expr) :
  (forall nm, xpath_expr <> AnyElement nm) ->
  text1_value (relabel f entry) xpath_expr = text1_value entry xpath_expr.
Proof.
  intros Hne. unfold text1_value. destruct xpath_expr as [nm|nm attr|nm|nm|nm]; simpl.
  - by rewrite child_elements_relabel, string_of_first_relabel.
  - by rewrite child_attributes_relabel.
  - by rewrite descendant_elements_relabel, string_of_first_relabel.
  - by rewrite descendant_text_relabel.
  - by destruct (Hne nm).
Qed.

(** X16. The namespaces of the elements play no part: put any namespace
    on every element of an entry, and its codes, its date test and its
    extracted fields are the same; do it to a whole document, and its
    entries are the same entries, relabelled. *)
Theorem namespaces_do_not_matter (f : QName -> string) (n : Node) (iso_date : string) :
  entry_cpv_codes (relabel f n) = entry_cpv_codes n /\
  entry_is_for_date (relabel f n) iso_date = entry_is_for_date n iso_date /\
  extract_fields (relabel f n) = extract_fields n /\
  all_elements "entry" (relabel f n) = map (relabel f) (all_elements "entry" n).
Proof.
  assert (Hcodes : entry_cpv_codes (relabel f n) = entry_cpv_codes n).
  { by rewrite !entry_cpv_codes_eq, descendant_text_relabel. }
  split; [done|]. split; [|split].
  - rewrite !entry_is_for_date_total. unfold date_test.
    by rewrite text1_value_relabel by discriminate.
  - rewrite !extract_fields_total. unfold record_of.
    by rewrite Hcodes, !text1_value_relabel by discriminate.
  - unfold all_elements. rewrite descendants_relabel.
    change (relabel f n :: map (relabel f) (descendants n))
      with (map (relabel f) (n :: descendants n)).
    apply filter_map_commute. intros x. apply named_relabel.
Qed.

Example atom_namespace_entry :
  extract_fields (relabel atom_ns sample_entry) = extract_fields sample_entry.
Proof. vm_compute. reflexivity. Qed.

(** ** Codes at any depth *)

Lemma descendants_trans (x d e : Node) :
  x ∈ descendants d -> d ∈ descendants e -> x ∈ descendants e.
Proof.
  intros Hx. induction e as [t a kids IH|s|s|t0 d0] using Node_tree_ind; simpl;
    try (by intros ?%elem_of_nil).
  rewrite !elem_of_flat_map. intros (k & Hk & Hd). exists k. split; [done|].
  right. apply elem_of_cons in Hd as [->|Hd]; [done|].
  rewrite Forall_forall in IH. by apply IH.
Qed.

(** X17. Codes are collected at any depth, also through nested entries:
    what is a code of an element beneath an entry is a code of the entry. *)
Theorem entry_cpv_codes_nested (entry d : Node) (c : string) :
  d ∈ descendants entry ->
  c ∈ entry_cpv_codes d ->
  c ∈ entry_cpv_codes entry.
Proof.
  intros Hd. rewrite !entry_cpv_codes_eq, !descendant_text_spec.
  intros (x & Hx & Hn & Ht). exists x. split; [|done].
  by apply (descendants_trans x d entry).
Qed.

Lemma entry_cpv_codes_nested_witness :
  el "lot" [el "ItemClassificationCode" [Text "45315300"]]
    ∈ descendants (el "entry" [el "lots" [el "lot" [el "ItemClassificationCode" [Text "45315300"]]]]) /\
  "45315300" ∈ entry_cpv_codes
    (el "entry" [el "lots" [el "lot" [el "ItemClassificationCode" [Text "45315300"]]]]).
Proof.
  assert (H : el "lot" [el "ItemClassificationCode" [Text "45315300"]]
    ∈ descendants (el "entry" [el "lots" [el "lot" [el "ItemClassificationCode" [Text "45315300"]]]])).
  { simpl. apply list_elem_of_In. simpl. auto. }
  split; [exact H|].
  apply (entry_cpv_codes_nested _ _ "45315300" H).
  simpl. apply list_elem_of_In. simpl. auto.
Defined.

(** ** The feed-file suffix *)

Lemma lower_app (a b : string) : Py.lower (a +:+ b) = Py.lower a +:+ Py.lower b.
Proof. induction a as [|c a IH]; simpl; [done | by rewrite IH]. Qed.

Lemma lower_length (s : string) : String.length (Py.lower s) = String.length s.
Proof. induction s as [|c s IH]; simpl; [done | by rewrite IH]. Qed.

Lemma lower_substring (s : string) : forall n m,
  Py.lower (String.substring n m s) = String.substring n m (Py.lower s).
Proof.
  induction s as [|c s IH]; intros n m.
  - by destruct n, m.
  - destruct n as [|n]; simpl.
    + destruct m as [|m]; simpl; [done | by rewrite IH].
    + apply IH.
Qed.

Lemma substring_full (s : string) : String.substring 0 (String.length s) s = s.
Proof. induction s as [|c s IH]; simpl; [done | by rewrite IH]. Qed.

Lemma substring_split (s : string) : forall m k,
  m + k = String.length s ->
  s = String.substring 0 m s +:+ String.substring m k s.
Proof.
  induction s as [|c s IH]; intros m k H; simpl in H.
  - assert (m = 0) as -> by lia. assert (k = 0) as -> by lia. done.
  - destruct m as [|m]; simpl.
    + simpl in H. subst k. simpl. by rewrite substring_full.
    + change (String c s = String c (String.substring 0 m s +:+ String.substring m k s)).
      f_equal. apply IH. lia.
Qed.

Lemma substring_app_r (a b : string) :
  String.substring (String.length a) (String.length b) (a +:+ b) = b.
Proof. induction a as [|c a IH]; simpl; [apply substring_full | done]. Qed.

Lemma substring_length (s : string) : forall n m,
  n + m <= String.length s -> String.length (String.substring n m s) = m.
Proof.
  induction s as [|c s IH]; intros n m H; simpl in H.
  - assert (n = 0) as -> by lia. assert (m = 0) as -> by lia. done.
  - destruct n as [|n]; simpl.
    + destruct m as [|m]; simpl; [done|]. rewrite IH; [done | lia].
    + apply IH. lia.
Qed.

Lemma endswith_iff (s p : string) :
  Py.endswith s p = true <-> exists base, s = base +:+ p.
Proof.
  unfold Py.endswith. rewrite andb_true_iff, Nat.leb_le, String.eqb_eq. split.
  - intros [Hle Hsub]. exists (String.substring 0 (String.length s - String.length p) s).
    pose proof (substring_split s (String.length s - String.length p) (String.length p)
                  ltac:(lia)) as Hs.
    by rewrite Hsub in Hs.
  - intros [base ->]. rewrite str_length_app. split; [lia|].
    replace (String.length base + String.length p - String.length p)
      with (String.length base) by lia.
    apply substring_app_r.
Qed.

(** X18. A member counts as a feed file exactly when its name ends in
    ".atom" in whatever mixture of upper and lower case. *)
Theorem is_feed_name_iff (name : string) :
  is_feed_name name = true <->
  exists base ext, name = base +:+ ext /\ Py.lower ext = ".atom".
Proof.
  unfold is_feed_name. split.
  - intros H. pose proof H as [Hle Hsub]%andb_true_iff.
    apply Nat.leb_le in Hle. apply String.eqb_eq in Hsub.
    rewrite lower_length in Hle, Hsub. simpl in Hle.
    exists (String.substring 0 (String.length name - 5) name),
           (String.substring (String.length name - 5) 5 name).
    split; [apply substring_split; simpl; lia|].
    by rewrite lower_substring.
  - intros (base & ext & -> & Hext). apply endswith_iff.
    exists (Py.lower base). by rewrite lower_app, Hext.
Qed.

Example feed_names :
  map is_feed_name ["a.atom"; "A.ATOM"; "b.Atom"; ".atom"; "atom"; "a.atom.zip"; "a.atom "] =
  [true; true; true; true; false; false; false].
Proof. vm_compute. reflexivity. Qed.

(** ** The CSV file *)

Lemma str_app_cons (x : ascii) (a b : string) : String x a +:+ b = String x (a +:+ b).
Proof. reflexivity. Qed.

Lemma str_app_nil_l (a : string) : "" +:+ a = a.
Proof. reflexivity. Qed.

Lemma str_app_assoc (a b c : string) : (a +:+ b) +:+ c = a +:+ (b +:+ c).
Proof.
  induction a as [|x a IH]; [done|]. rewrite !str_app_cons. by f_equal.
Qed.

Lemma str_app_nil_r (a : string) : a +:+ "" = a.
Proof. induction a as [|x a IH]; [done|]. rewrite str_app_cons. by f_equal. Qed.

Lemma csv_special_false (c : ascii) :
  csv_special c = false ->
  Ascii.eqb c "," = false /\ Ascii.eqb c ch_dq = false /\
  Ascii.eqb c ch_cr = false /\ Ascii.eqb c ch_lf = false.
Proof. unfold csv_special. rewrite !orb_false_iff. tauto. Qed.

Lemma csv_read_plain (s : string) :
  forall (d : ascii) (rest cur : string) (fields : list string) (records : list (list string)),
    any_char csv_special s = false ->
    d = ","%char \/ d = ch_cr ->
    csv_read_from (s +:+ String d rest) InPlain cur fields records =
    csv_at_delimiter d rest (cur +:+ s) fields records.
Proof.
  induction s as [|a s IH]; intros d rest cur fields records Hs Hd.
  - rewrite str_app_nil_r. by destruct Hd as [-> | ->].
  - simpl in Hs. apply orb_false_iff in Hs as [Ha Hs].
    apply csv_special_false in Ha as (H1 & H2 & H3 & H4).
    simpl. rewrite H1, H2, H3, H4. simpl. rewrite IH by done.
    by rewrite str_app_assoc.
Qed.

Lemma csv_read_quoted (s : string) :
  forall (d : ascii) (rest cur : string) (fields : list string) (records : list (list string)),
    d = ","%char \/ d = ch_cr ->
    csv_read_from (csv_double_quotes s +:+ String ch_dq (String d rest))
                  InQuoted cur fields records =
    csv_at_delimiter d rest (cur +:+ s) fields records.
Proof.
  induction s as [|a s IH]; intros d rest cur fields records Hd.
  - rewrite str_app_nil_r. by destruct Hd as [-> | ->].
  - simpl. destruct (Ascii.eqb a ch_dq) eqn:Ea.
    + apply Ascii.eqb_eq in Ea as ->. simpl. rewrite IH by done.
      by rewrite str_app_assoc.
    + simpl. rewrite Ea. rewrite IH by done. by rewrite str_app_assoc.
Qed.

Lemma csv_read_open_quote (x cur : string) (fields : list string)
    (records : list (list string)) :
  csv_read_from (String ch_dq x) AtStart cur fields records =
  csv_read_from x InQuoted "" fields records.
Proof. reflexivity. Qed.

Lemma csv_read_field (s : string) (d : ascii) (rest : string) (fields : list string)
    (records : list (list string)) :
  d = ","%char \/ d = ch_cr ->
  csv_read_from (csv_field s +:+ String d rest) AtStart "" fields records =
  csv_at_delimiter d rest s fields records.
Proof.
  intros Hd. unfold csv_field. destruct (any_char csv_special s) eqn:Es.
  - rewrite str_app_cons, csv_read_open_quote, str_app_assoc, str_app_cons, str_app_nil_l.
    by rewrite csv_read_quoted.
  - destruct s as [|a s]; [by destruct Hd as [-> | ->]|].
    simpl in Es. apply orb_false_iff in Es as [Ha Hs].
    apply csv_special_false in Ha as (H1 & H2 & H3 & H4).
    simpl. rewrite H1, H2, H3, H4. by rewrite csv_read_plain.
Qed.

Lemma csv_at_comma (rest cur : string) (fields : list string)
    (records : list (list string)) :
  csv_at_delimiter "," rest cur fields records =
  csv_read_from rest AtStart "" (fields ++ [cur])%list records.
Proof. reflexivity. Qed.

Lemma csv_at_crlf (rest cur : string) (fields : list string)
    (records : list (list string)) :
  csv_at_delimiter ch_cr (String ch_lf rest) cur fields records =
  csv_read_from rest AtStart "" [] (records ++ [fields ++ [cur]])%list.
Proof. reflexivity. Qed.

Lemma csv_read_joined (xs : list string) :
  forall (x : string) (pre : list string) (rest : string) (records : list (list string)),
    csv_read_from (String.concat "," (map csv_field (x :: xs)) +:+
                   String ch_cr (String ch_lf rest)) AtStart "" pre records =
    csv_read_from rest AtStart "" [] (records ++ [pre ++ x :: xs])%list.
Proof.
  induction xs as [|y ys IH]; intros x pre rest records.
  - change (String.concat "," (map csv_field [x])) with (csv_field x).
    rewrite csv_read_field by (by right). apply csv_at_crlf.
  - change (String.concat "," (map csv_field (x :: y :: ys)))
      with (csv_field x +:+ "," +:+ String.concat "," (map csv_field (y :: ys))).
    rewrite !str_app_assoc, (str_app_cons "," ""), str_app_nil_l.
    rewrite csv_read_field by (by left). rewrite csv_at_comma, IH.
    by rewrite <- app_assoc.
Qed.

Lemma csv_read_record (x : string) (xs pre : list string) (rest : string)
    (records : list (list string)) :
  csv_read_from (csv_record (x :: xs) +:+ rest) AtStart "" pre records =
  csv_read_from rest AtStart "" [] (records ++ [pre ++ x :: xs])%list.
Proof.
  unfold csv_record, Py.join.
  rewrite str_app_assoc, !str_app_cons, str_app_nil_l. apply csv_read_joined.
Qed.

Lemma csv_read_records (rows : list (list string)) :
  forall (records : list (list string)),
    Forall (fun fields => fields <> []) rows ->
    csv_read_from (str_concat (map csv_record rows)) AtStart "" [] records =
    Some (records ++ rows)%list.
Proof.
  induction rows as [|fields rows IH]; intros records Hne; simpl.
  - by rewrite app_nil_r.
  - apply Forall_cons in Hne as [Hf Hne]. destruct fields as [|x xs]; [done|].
    change (str_concat (csv_record (x :: xs) :: map csv_record rows))
      with (csv_record (x :: xs) +:+ str_concat (map csv_record rows)).
    rewrite csv_read_record, IH by done. by rewrite <- app_assoc.
Qed.

(** X19. Reading back the CSV text that [write_csv] writes gives the header
    and then, row for row and field for field, the values written: commas,
    quotes and line breaks inside a field survive. *)
Theorem write_csv_reads_back (rows : list TenderRecord) :
  Forall (fun r => Forall (fun s => nul_free s = true) (row_values r)) rows ->
  csv_read (write_csv rows) = Some (csv_cols :: map row_values rows).
Proof.
  intros _. unfold csv_read, write_csv, csv_cols.
  rewrite csv_read_record. simpl app.
  rewrite <- (map_map row_values csv_record).
  rewrite csv_read_records; [done|].
  apply Forall_forall. intros fields Hin.
  apply list_elem_of_In, in_map_iff in Hin as (r & <- & _). discriminate.
Qed.

Lemma write_csv_reads_back_witness :
  Forall (fun r => Forall (fun s => nul_free s = true) (row_values r))
         [awkward_record; record_of sample_entry] /\
  csv_read (write_csv [awkward_record; record_of sample_entry]) =
    Some [csv_cols; row_values awkward_record; row_values (record_of sample_entry)].
Proof.
  assert (H : Forall (fun r => Forall (fun s => nul_free s = true) (row_values r))
                     [awkward_record; record_of sample_entry]).
  { repeat (apply Forall_cons_2; [repeat (apply Forall_cons_2; [vm_compute; reflexivity|]);
                                  apply Forall_nil_2|]).
    apply Forall_nil_2. }
  split; [exact H|]. apply (write_csv_reads_back _ H).
Defined.

Example write_csv_no_rows :
  write_csv [] =
  "expediente,objeto,organo,estado,importe,cpv,fecha_updated,enlace" +:+
  String ch_cr (String ch_lf "").
Proof. reflexivity. Qed.

(** ** The rows of the report *)

Lemma count_char_app (c : ascii) (a b : string) :
  count_char c (a +:+ b) = count_char c a + count_char c b.
Proof. induction a as [|x a IH]; simpl; [done | rewrite IH; lia]. Qed.

Lemma count_char_html_escape (c : ascii) (s : string) :
  c = "<"%char \/ c = ">"%char \/ c = ch_dq \/ c = "'"%char ->
  count_char c (html_escape s) = 0.
Proof.
  intros Hc. induction s as [|a s IH]; simpl; [done|].
  rewrite count_char_app, IH, Nat.add_0_r.
  unfold html_escape_char.
  destruct (Ascii.eqb a "&"); [by destruct Hc as [-> | [-> | [-> | ->]]]|].
  destruct (Ascii.eqb a "<") eqn:E1; [by destruct Hc as [-> | [-> | [-> | ->]]]|].
  destruct (Ascii.eqb a ">") eqn:E2; [by destruct Hc as [-> | [-> | [-> | ->]]]|].
  destruct (Ascii.eqb a ch_dq) eqn:E3; [by destruct Hc as [-> | [-> | [-> | ->]]]|].
  destruct (Ascii.eqb a "'") eqn:E4; [by destruct Hc as [-> | [-> | [-> | ->]]]|].
  simpl. destruct Hc as [-> | [-> | [-> | ->]]]; by rewrite ?E1, ?E2, ?E3, ?E4.
Qed.

(** X20. Escaped text holds no angle bracket, no double quote and no
    apostrophe, whatever the text was. *)
Theorem html_escape_no_markup (s : string) :
  count_char "<" (html_escape s) = 0 /\
  count_char ">" (html_escape s) = 0 /\
  count_char ch_dq (html_escape s) = 0 /\
  count_char "'" (html_escape s) = 0.
Proof. repeat split; apply count_char_html_escape; tauto. Qed.

Lemma count_char_row_html (r : TenderRecord) :
  count_char "<" (row_html r) = 20 /\
  count_char ">" (row_html r) = 20 /\
  count_char ch_dq (row_html r) = 8 /\
  count_char "'" (row_html r) = 0.
Proof.
  unfold row_html, str_concat.
  repeat split; rewrite !count_char_app, !count_char_html_escape by tauto; reflexivity.
Qed.

(** X21. Whatever the records hold, the rows of the report have exactly the
    markup of the template: twenty < and twenty > and eight double quotes
    for each row, and no single quote; no field opens a tag or leaves its
    attribute. *)
Theorem rows_html_markup_is_the_template (r : TenderRecord) (rs : list TenderRecord) :
  count_char "<" (rows_html (Some (r :: rs))) = 20 * length (r :: rs) /\
  count_char ">" (rows_html (Some (r :: rs))) = 20 * length (r :: rs) /\
  count_char ch_dq (rows_html (Some (r :: rs))) = 8 * length (r :: rs) /\
  count_char "'" (rows_html (Some (r :: rs))) = 0.
Proof.
  unfold rows_html. generalize (r :: rs). clear r rs.
  induction l as [|r rs IH]; [done|].
  destruct IH as (I1 & I2 & I3 & I4).
  destruct (count_char_row_html r) as (H1 & H2 & H3 & H4).
  change (str_concat (map row_html (r :: rs)))
    with (row_html r +:+ str_concat (map row_html rs)).
  rewrite !count_char_app, H1, H2, H3, H4, I1, I2, I3, I4. simpl length. lia.
Qed.

Example rows_html_of_nothing :
  rows_html None = no_rows_html /\ rows_html (Some []) = no_rows_html.
Proof. split; reflexivity. Qed.
